(** * The trading ledger of the stock-trading simulator

    A shallow embedding of the two Flask applications of the repository,
    [src/app.py] (in-memory lists) and [src/app_aws.py] (DynamoDB tables),
    and the properties of their signup, buy, sell and watchlist handlers.

    Conventions of the embedding.
    - A Python [float] is a primitive binary64 [float]; [+], [-], [*] and
      [<] are the IEEE operations Python performs, with the same rounding.
    - A Python [int] is a [Z].  Mixed [int * float] arithmetic first converts
      the integer ([float_of_int]), which raises [OverflowError] when the
      integer does not fit.
    - A handler is a function from the store to a response and the new
      store.  An exception that leaves the handler is the response
      [Raise e]; the store it returns is the store at the time of the raise.
    - The session cookie and the submitted form are arguments of a handler.
    - A [Decimal] of app_aws.py is its value in hundredths, a [Z]; the
      product [price * Decimal(qty)] is rounded to the 28 significant digits
      of Python's decimal context.
    - What DynamoDB answers to the writes of a buy is an argument of the
      handlers of app_aws.py: the service is not part of the repository. *)

From Stdlib Require Import ZArith List String Bool Lia Floats.
From stdpp Require Import base option gmap strings.
Import ListNotations.

Set Warnings "-inexact-float".
Local Open Scope Z_scope.

(** ** Python values *)

(** The exceptions the handlers can let escape. *)
Inductive PyExn : Type :=
| FormFieldError  (* int(request.form[...]) or float(request.form[...]) failed:
                     BadRequestKeyError (answered 400) when the field is
                     missing, ValueError when its text does not parse *)
| KeyError        (* a missing dictionary or session key *)
| TypeError       (* subscripting None *)
| OverflowError   (* int too large to convert to float *)
| StopIteration   (* next(...) on an exhausted generator, no default *)
| PandasError     (* read_csv or iloc[-1] failed *)
| DecimalOverflow (* decimal.Overflow: a result beyond the exponent range *)
| DynamoDBError.  (* a write refused, by boto3's serialiser or by the service *)

(** [float(n)] for a Python integer [n]: rounded to nearest, ties to even;
    [None] stands for [OverflowError]. *)
Definition float_of_int (n : Z) : option float :=
  match binary_normalize prec emax n 0 false with
  | S754_infinity _ => None
  | sf => Some (SF2Prim sf)
  end.

Section PyList.
Context {A : Type}.

(** [next((x for x in l if p(x)), None)]. *)
Definition next_or_none (p : A -> bool) (l : list A) : option A := find p l.

(** The object [next_or_none p l] returns is the list element itself, not a
    copy: assigning to one of its keys changes the list.  [mutate_first p f l]
    is the list after that object has been changed by [f]. *)
Fixpoint mutate_first (p : A -> bool) (f : A -> A) (l : list A) : list A :=
  match l with
  | [] => []
  | x :: t => if p x then f x :: t else x :: mutate_first p f t
  end.

(** The list without its first element that satisfies [p]. *)
Fixpoint remove_first (p : A -> bool) (l : list A) : list A :=
  match l with
  | [] => []
  | x :: t => if p x then t else x :: remove_first p t
  end.

End PyList.

(** The configured companies and their data files, in insertion order
    (the same dictionary in both applications). *)
Definition COMPANIES : list (string * string) :=
  [ ("Apple", "Apple.csv"); ("Google", "Google.csv"); ("Amazon", "Amazon.csv");
    ("Netflix", "Netflix.csv"); ("Facebook", "Facebook.csv");
    ("Microsoft", "Microsoft.csv"); ("Tesla", "Tesla.csv"); ("Uber", "Uber.csv");
    ("Walmart", "Walmart.csv"); ("Zoom", "Zoom.csv") ]%string.

(** [COMPANIES[company]], [None] standing for [KeyError]. *)
Definition COMPANIES_get (company : string) : option string :=
  option_map snd (find (fun kv => String.eqb (fst kv) company) COMPANIES).

(** ** src/app.py: the in-memory application *)
Module App.

Record User : Type := mkUser
  { user_id : Z; name : string; email : string; password : string; balance : float }.

Record Watch : Type := mkWatch { w_user : string; w_company : string }.

Record Holding : Type := mkHolding
  { h_user : string; h_company : string; quantity : Z; buy_price : float }.

Record Stock : Type := mkStock { company : string; price : float; date : string }.

(** The three module-level lists [users], [watchlists], [portfolio]. *)
Record Store : Type := mkStore
  { users : list User; watchlists : list Watch; portfolio : list Holding }.

(** The data folder: for a file name, the last row of the CSV file as
    [load_latest_prices] reads it, that is [round(float(Close), 2)] and
    [Date]; [None] when pandas raises (missing or empty file). *)
Definition DataFolder : Type := string -> option (float * string).

(** [session.get("user")]; [None] when the key is absent. *)
Definition Session : Type := option string.

(** The flashed messages, named after their text. *)
Inductive Flash : Type :=
| EmailAlreadyRegistered            (* "Email already registered. Please login." *)
| AccountCreated                    (* "Account created successfully. Please login." *)
| LoginFirst                        (* "Login first" *)
| SessionExpired                    (* "Session expired" *)
| InvalidQuantity                   (* "Invalid quantity" *)
| StockNotFound                     (* "Stock not found" *)
| InsufficientBalance               (* "Insufficient balance" *)
| Bought (qty : Z) (company : string)  (* f"Bought {qty} shares of {company}" *)
| NotEnoughQuantity                 (* "Not enough quantity to sell" *)
| StockSold.                        (* "Stock sold successfully" *)

Inductive Response : Type :=
| Redirect (endpoint : string) (flashed : option Flash)
| Render (template : string)
| Raise (e : PyExn).

Fixpoint load_rows (data : DataFolder) (cs : list (string * string)) : option (list Stock) :=
  match cs with
  | [] => Some []
  | (c, file) :: rest =>
      match data file with
      | None => None
      | Some (close, day) =>
          match load_rows data rest with
          | None => None
          | Some prices => Some (mkStock c close day :: prices)
          end
      end
  end.

(** [load_latest_prices()]: one entry per company; [None] when a read raises. *)
Definition load_latest_prices (data : DataFolder) : option (list Stock) :=
  load_rows data COMPANIES.

Definition is_named (username : string) (u : User) : bool := String.eqb (name u) username.

(** [get_user()]: the first user whose name is the session's; [None] when the
    session has no user or an empty one. *)
Definition get_user (st : Store) (session : Session) : option User :=
  match session with
  | None => None
  | Some username =>
      if String.eqb username EmptyString then None
      else next_or_none (is_named username) (users st)
  end.

Definition set_balance (b : float) (u : User) : User :=
  mkUser (user_id u) (name u) (email u) (password u) b.

Definition set_quantity (q : Z) (h : Holding) : Holding :=
  mkHolding (h_user h) (h_company h) q (buy_price h).

Definition is_holding (username company' : string) (p : Holding) : bool :=
  String.eqb (h_user p) username && String.eqb (h_company p) company'.

Definition is_watch (username company' : string) (w : Watch) : bool :=
  String.eqb (w_user w) username && String.eqb (w_company w) company'.

Record SignupForm : Type := mkSignupForm
  { form_name : string; form_email : string; form_password : string }.

(** [signup()].  [form] is [None] for a GET request.  [hashed] is the value
    [generate_password_hash(form_password)] returns (it is salted).  The
    balance starts as the integer 100000; every comparison and operation it
    meets is with a float and converts it, exactly, to the float 100000.0
    kept here. *)
Definition signup (form : option SignupForm) (hashed : string) (st : Store)
  : Response * Store :=
  match form with
  | None => (Render "signup.html", st)
  | Some f =>
      if existsb (fun u => String.eqb (email u) (form_email f)) (users st)
      then (Redirect "login" (Some EmailAlreadyRegistered), st)
      else
        let u := mkUser (Z.of_nat (length (users st)) + 1) (form_name f)
                        (form_email f) hashed 100000%float in
        (Redirect "login" (Some AccountCreated),
         mkStore (users st ++ [u]) (watchlists st) (portfolio st))
  end.

(** [buy_stock(company)].  [form_quantity] is the value of
    [int(request.form["quantity"])], [None] when that expression raises. *)
Definition buy_stock (data : DataFolder) (session : Session) (company' : string)
  (form_quantity : option Z) (st : Store) : Response * Store :=
  match session with
  | None => (Redirect "login" (Some LoginFirst), st)
  | Some username =>
  match get_user st session with
  | None => (Redirect "login" (Some SessionExpired), st)
  | Some user =>
  match form_quantity with
  | None => (Redirect "dashboard" (Some InvalidQuantity), st)
  | Some qty =>
  match load_latest_prices data with
  | None => (Raise PandasError, st)
  | Some stocks =>
  match next_or_none (fun s => String.eqb (company s) company') stocks with
  | None => (Redirect "dashboard" (Some StockNotFound), st)
  | Some stock =>
  match float_of_int qty with
  | None => (Raise OverflowError, st)
  | Some qf =>
      let total_cost := (qf * price stock)%float in
      if (balance user <? total_cost)%float
      then (Redirect "dashboard" (Some InsufficientBalance), st)
      else
        (Redirect "portfolio_page" (Some (Bought qty company')),
         mkStore
           (mutate_first (is_named username)
              (fun u => set_balance (balance u - total_cost)%float u) (users st))
           (watchlists st)
           (portfolio st ++ [mkHolding username company' qty (price stock)]))
  end end end end end end.

(** [sell_stock(company)].  [form_quantity] and [form_sell_price] are the
    values of [int(request.form["quantity"])] and
    [float(request.form["sell_price"])], [None] when the expression raises.

    [user] and [holding] are the list elements themselves, so the two
    assignments change [users] and [portfolio].  [user["balance"] += ...]
    reads [user["balance"]] first ([TypeError] when [get_user()] gave None)
    and then multiplies ([OverflowError]); nothing is written before.

    [portfolio.remove(holding)] deletes the first element equal to [holding];
    every earlier element differs from it in its user or its company, so the
    element deleted is [holding] itself, the first that [is_holding]. *)
Definition sell_stock (session : Session) (company' : string)
  (form_quantity : option Z) (form_sell_price : option float) (st : Store)
  : Response * Store :=
  match session with
  | None => (Redirect "login" None, st)
  | Some username =>
  match form_quantity with
  | None => (Raise FormFieldError, st)
  | Some qty_to_sell =>
  match form_sell_price with
  | None => (Raise FormFieldError, st)
  | Some sell_price =>
  match next_or_none (is_holding username company') (portfolio st) with
  | None => (Redirect "portfolio_page" (Some NotEnoughQuantity), st)
  | Some holding =>
      if quantity holding <? qty_to_sell
      then (Redirect "portfolio_page" (Some NotEnoughQuantity), st)
      else
  match get_user st session with
  | None => (Raise TypeError, st)
  | Some user =>
  match float_of_int qty_to_sell with
  | None => (Raise OverflowError, st)
  | Some qf =>
      let users' :=
        mutate_first (is_named username)
          (fun u => set_balance (balance u + sell_price * qf)%float u) (users st) in
      let left := quantity holding - qty_to_sell in
      let portfolio' :=
        mutate_first (is_holding username company') (set_quantity left) (portfolio st) in
      (Redirect "portfolio_page" (Some StockSold),
       mkStore users' (watchlists st)
         (if left =? 0
          then remove_first (is_holding username company') portfolio'
          else portfolio'))
  end end end end end end.

(** [add_to_watchlist(company)]: no login check, [session["user"]] raises
    [KeyError] without a user. *)
Definition add_to_watchlist (session : Session) (company' : string) (st : Store)
  : Response * Store :=
  match session with
  | None => (Raise KeyError, st)
  | Some username =>
      if existsb (is_watch username company') (watchlists st)
      then (Redirect "dashboard" None, st)
      else (Redirect "dashboard" None,
            mkStore (users st) (watchlists st ++ [mkWatch username company'])
                    (portfolio st))
  end.

(** The loop of [portfolio_page()] over the rows of the user, as far as it
    can raise: [next(...)] without a default raises when no price is of the
    row's company, and [(current_price - p["buy_price"]) * p["quantity"]]
    converts the quantity to a float.  The float operations themselves
    ([*], [-], [round(x, 2)], [+=]) do not raise.  [None] when the loop ends. *)
Fixpoint valuation_raises (prices : list Stock) (user_portfolio : list Holding)
  : option PyExn :=
  match user_portfolio with
  | [] => None
  | p :: rest =>
      match next_or_none (fun s => String.eqb (company s) (h_company p)) prices with
      | None => Some StopIteration
      | Some _ =>
          match float_of_int (quantity p) with
          | None => Some OverflowError
          | Some _ => valuation_raises prices rest
          end
      end
  end.

(** [portfolio_page()], the valuation.  It reads the store and builds a view
    whose current prices carry a [random.uniform(0.95, 1.05)] factor; the view
    is display only and is left out of the response here.  [user["balance"]]
    is read after the loop, when the template is rendered. *)
Definition portfolio_page (data : DataFolder) (session : Session) (st : Store)
  : Response * Store :=
  match session with
  | None => (Redirect "login" None, st)
  | Some username =>
  match load_latest_prices data with
  | None => (Raise PandasError, st)
  | Some prices =>
  match valuation_raises prices
          (List.filter (fun p => String.eqb (h_user p) username) (portfolio st)) with
  | Some e => (Raise e, st)
  | None =>
  match get_user st session with
  | None => (Raise TypeError, st)
  | Some _ => (Render "portfolio.html", st)
  end end end end.

(** The lists are empty when the application starts. *)
Definition start : Store := mkStore [] [] [].

(** One request to the application. *)
Inductive Request : Type :=
| POST_signup (form : SignupForm) (hashed : string)
| POST_buy (data : DataFolder) (session : Session) (company' : string)
    (form_quantity : option Z)
| POST_sell (session : Session) (company' : string) (form_quantity : option Z)
    (form_sell_price : option float)
| GET_add_to_watchlist (session : Session) (company' : string)
| GET_portfolio (data : DataFolder) (session : Session).

Definition handle (r : Request) (st : Store) : Response * Store :=
  match r with
  | POST_signup f hashed => signup (Some f) hashed st
  | POST_buy data s c q => buy_stock data s c q st
  | POST_sell s c q p => sell_stock s c q p st
  | GET_add_to_watchlist s c => add_to_watchlist s c st
  | GET_portfolio data s => portfolio_page data s st
  end.

(** The store after a sequence of requests, served one after the other. *)
Definition run (rs : list Request) (st : Store) : Store :=
  fold_left (fun s r => snd (handle r s)) rs st.

End App.

(** ** src/app_aws.py: the application on DynamoDB

    The same routes over three tables, without a sell route. *)
Module AppAws.

(** A [Decimal] amount of money by its value, counted in hundredths: a
    price is [Decimal(str(round(float(Close), 2)))], a multiple of 0.01, a
    balance starts at [Decimal("100000")] and moves by products of a price
    and an integer. *)
Definition Decimal : Type := Z.

(** The number of decimal digits of [n]; none for 0. *)
Fixpoint digits10_fuel (fuel : nat) (n : Z) : Z :=
  match fuel with
  | O => 0
  | S fuel' => if n <=? 0 then 0 else 1 + digits10_fuel fuel' (n / 10)
  end.

Definition digits10 (n : Z) : Z :=
  digits10_fuel (S (Z.to_nat (Z.log2 (Z.abs n)))) (Z.abs n).

(** [n] rounded to [precision] significant digits, a tie going to the even
    neighbour (ROUND_HALF_EVEN, the rounding of Python's decimal context).
    Counting in hundredths adds only zeros after the last digit of a
    coefficient, so the digits dropped and the result are those of the
    [Decimal]. *)
Definition round_half_even (precision n : Z) : Z :=
  let excess := digits10 n - precision in
  if excess <=? 0 then n
  else
    let step := 10 ^ excess in
    let q := Z.abs n / step in
    let r := Z.abs n mod step in
    let q' := match 2 * r ?= step with
              | Lt => q
              | Gt => q + 1
              | Eq => if Z.even q then q else q + 1
              end in
    Z.sgn n * (q' * step).

(** [price * Decimal(qty)] in the default context of [decimal]: [Decimal(qty)]
    is exact, the product is rounded to 28 significant digits, and a result
    whose adjusted exponent exceeds Emax = 999999 (1000003 digits or more,
    in hundredths) raises [decimal.Overflow], here [None]. *)
Definition Decimal_mul (price : Decimal) (qty : Z) : option Decimal :=
  let product := round_half_even 28 (price * qty) in
  if 1000002 <? digits10 product then None else Some product.

(** An item of the Users table; its key is the email. *)
Record UserItem : Type := mkUserItem
  { name : string; password : string; balance : Decimal }.

(** An item of the Portfolio table. *)
Record PortfolioItem : Type := mkPortfolioItem
  { quantity : Z; buy_price : Decimal }.

Inductive Notification : Type :=
| NewSignup (email : string)
| StockPurchased (email : string) (qty : Z) (company : string).

(** What the two writes of [buy_stock] meet on the other side.  The tables
    live in DynamoDB, outside the repository: boto3 serialises a number in a
    context of 38 digits that traps rounding, and the service stores numbers
    of up to 38 digits, so a write can be refused.
    - [update_balance b amt] is [SET balance = balance - :amt] on an item
      whose balance is [b]: the balance stored, [None] when the write is
      refused.
    - [put_item_accepts item] tells whether [put_item] stores the portfolio
      item. *)
Record DynamoDB : Type := mkDynamoDB
  { update_balance : Decimal -> Decimal -> option Decimal;
    put_item_accepts : PortfolioItem -> bool }.

(** Modelled from the spec: the key schema of the Portfolio and Watchlist
    tables is created outside the repository; a holding is per (owner,
    symbol) and a watchlist entry is unique per (owner, symbol), so both
    tables are keyed by the pair (email, company).  [put_item] replaces the
    item stored under its key. *)
Record Tables : Type := mkTables
  { users_table : gmap string UserItem;
    portfolio_table : gmap (string * string) PortfolioItem;
    watchlist_table : gset (string * string);
    published : list Notification }.

(** For a file name, the last row of the CSV file as [get_latest_price]
    returns it (the rounded close, a finite number, as a [Decimal], and the
    date); [None] when pandas raises. *)
Definition DataFolder : Type := string -> option (Decimal * string).

(** [session.get("email")]; [None] when the key is absent. *)
Definition Session : Type := option string.

Inductive Flash : Type :=
| AccountAlreadyExists              (* "Account already exists. Please login." *)
| SignupSuccessful                  (* "Signup successful. Login now." *)
| InsufficientBalance               (* "Insufficient balance" *)
| Bought (qty : Z) (company : string).  (* f"Bought {qty} shares of {company}" *)

Inductive Response : Type :=
| Redirect (endpoint : string) (flashed : option Flash)
| Render (template : string)
| Raise (e : PyExn).

(** [get_latest_price(company)]. *)
Definition get_latest_price (data : DataFolder) (company : string)
  : PyExn + (Decimal * string) :=
  match COMPANIES_get company with
  | None => inl KeyError
  | Some file =>
      match data file with
      | None => inl PandasError
      | Some row => inr row
      end
  end.

(** [get_user()]: the item of the session's email, if any. *)
Definition get_user (db : Tables) (session : Session) : option UserItem :=
  match session with
  | None => None
  | Some email => users_table db !! email
  end.

Record SignupForm : Type := mkSignupForm
  { form_name : string; form_email : string; form_password : string }.

(** [signup()].  [form] is [None] for a GET request; [hashed] is the value of
    [generate_password_hash(form_password)]. *)
Definition signup (form : option SignupForm) (hashed : string) (db : Tables)
  : Response * Tables :=
  match form with
  | None => (Render "signup.html", db)
  | Some f =>
      match users_table db !! form_email f with
      | Some _ => (Redirect "login" (Some AccountAlreadyExists), db)
      | None =>
          (Redirect "login" (Some SignupSuccessful),
           mkTables
             (<[form_email f := mkUserItem (form_name f) hashed 10000000]> (users_table db))
             (portfolio_table db) (watchlist_table db)
             (published db ++ [NewSignup (form_email f)]))
      end
  end.

(** [buy_stock(company)].  [form_quantity] is the value of
    [int(request.form["quantity"])], [None] when that expression raises (it
    is not caught here).  The balance is written by [update_item] before the
    portfolio item is written by [put_item]: when the second write is
    refused, the first one stays. *)
Definition buy_stock (ddb : DynamoDB) (data : DataFolder) (session : Session)
  (company : string) (form_quantity : option Z) (db : Tables) : Response * Tables :=
  match session with
  | None => (Redirect "login" None, db)
  | Some email =>
  match form_quantity with
  | None => (Raise FormFieldError, db)
  | Some qty =>
  match get_latest_price data company with
  | inl e => (Raise e, db)
  | inr (price, _) =>
  match Decimal_mul price qty with
  | None => (Raise DecimalOverflow, db)
  | Some total_cost =>
  match get_user db session with
  | None => (Raise TypeError, db)
  | Some user =>
      if total_cost >? balance user
      then (Redirect "dashboard" (Some InsufficientBalance), db)
      else
  match update_balance ddb (balance user) total_cost with
  | None => (Raise DynamoDBError, db)
  | Some balance' =>
      let users_table' :=
        <[email := mkUserItem (name user) (password user) balance']> (users_table db) in
      if put_item_accepts ddb (mkPortfolioItem qty price)
      then
        (Redirect "portfolio_page" (Some (Bought qty company)),
         mkTables users_table'
           (<[(email, company) := mkPortfolioItem qty price]> (portfolio_table db))
           (watchlist_table db)
           (published db ++ [StockPurchased email qty company]))
      else
        (Raise DynamoDBError,
         mkTables users_table' (portfolio_table db) (watchlist_table db) (published db))
  end end end end end end.

(** [add_to_watchlist(company)]. *)
Definition add_to_watchlist (session : Session) (company : string) (db : Tables)
  : Response * Tables :=
  match session with
  | None => (Raise KeyError, db)
  | Some email =>
      (Redirect "dashboard" None,
       mkTables (users_table db) (portfolio_table db)
         ({[ (email, company) ]} ∪ watchlist_table db) (published db))
  end.

End AppAws.

(** ** Predicates of the statements *)

(** Every holding record has a positive quantity. *)
Definition quantities_positive (st : App.Store) : Prop :=
  Forall (fun h => 0 < App.quantity h) (App.portfolio st).

(** The buys of a request sequence ask for at least one share. *)
Definition buys_positive (r : App.Request) : Prop :=
  match r with
  | App.POST_buy _ _ _ (Some qty) => 0 < qty
  | _ => True
  end.

(** No balance is below zero ([balance < 0] is false for every user). *)
Definition balances_not_negative (st : App.Store) : Prop :=
  Forall (fun u => (App.balance u <? 0)%float = false) (App.users st).

(** The sells of a request sequence carry a quantity that is not negative
    and a price that is not negative. *)
Definition sells_not_negative (r : App.Request) : Prop :=
  match r with
  | App.POST_sell _ _ (Some qty) (Some sell_price) =>
      0 <= qty /\ (sell_price <? 0)%float = false
  | _ => True
  end.

(** On the specification side of binary64: a float whose sign bit is clear,
    and a float below zero. *)
Definition SFunsigned (x : spec_float) : bool :=
  match x with
  | S754_zero s | S754_infinity s | S754_finite s _ _ => negb s
  | S754_nan => true
  end.

Definition SFnegative (x : spec_float) : bool :=
  match x with
  | S754_infinity true | S754_finite true _ _ => true
  | _ => false
  end.

(** ** Sample data for the concrete scenarios *)

Definition sample_data : App.DataFolder :=
  fun file =>
    if String.eqb file "Apple.csv" then Some (150.23%float, "2024-01-02"%string)
    else if String.eqb file "Tesla.csv" then Some (204.86%float, "2024-01-02"%string)
    else Some (100%float, "2024-01-02"%string).

Definition alice : App.User :=
  App.mkUser 1 "alice" "alice@example.com" "scrypt:32768:8:1$salt$hash" 100000%float.

Definition bob : App.User :=
  App.mkUser 2 "bob" "bob@example.com" "scrypt:32768:8:1$salt$hash2" 100000%float.

(** Two users just after signup. *)
Definition fresh_store : App.Store := App.mkStore [alice; bob] [] [].

Definition sample_data_aws : AppAws.DataFolder :=
  fun file =>
    if String.eqb file "Apple.csv" then Some (15023, "2024-01-02"%string)
    else Some (10000, "2024-01-02"%string).

Definition fresh_tables : AppAws.Tables :=
  AppAws.mkTables
    {[ "alice@example.com"%string :=
         AppAws.mkUserItem "alice" "scrypt:32768:8:1$salt$hash" 10000000 ]}
    ∅ ∅ [].

(** For the concrete scenarios: a service that subtracts exactly and refuses
    a number that takes more than 38 digits, counted in hundredths. *)
Definition dynamodb_38_digits : AppAws.DynamoDB :=
  AppAws.mkDynamoDB
    (fun b amt =>
       if (AppAws.digits10 amt <=? 38) && (AppAws.digits10 (b - amt) <=? 38)
       then Some (b - amt) else None)
    (fun item =>
       (AppAws.digits10 (AppAws.quantity item) <=? 38)
       && (AppAws.digits10 (AppAws.buy_price item) <=? 38)).

(** Alice with a balance of 1000000000000000000000000100000.00. *)
Definition rich_tables : AppAws.Tables :=
  AppAws.mkTables
    {[ "alice@example.com"%string :=
         AppAws.mkUserItem "alice" "scrypt:32768:8:1$salt$hash" (10 ^ 32 + 10000000) ]}
    ∅ ∅ [].

(** Alice holds ten Apple shares bought at 150. *)
Definition holding_store : App.Store :=
  App.mkStore [alice; bob] [] [App.mkHolding "alice" "Apple" 10 150%float].

Definition holding_tables : AppAws.Tables :=
  AppAws.mkTables
    {[ "alice@example.com"%string :=
         AppAws.mkUserItem "alice" "scrypt:32768:8:1$salt$hash" 10000000 ]}
    {[ ("alice@example.com", "Apple")%string := AppAws.mkPortfolioItem 10 15000 ]}
    ∅ [].

(** A feed that quotes every company at 150. *)
Definition flat_data : App.DataFolder := fun _ => Some (150%float, "2024-01-02"%string).

(** ** src/app.py: login, logout and the pages that read the store *)
Module AppPages.

(** What a route that shows a page answers: the template rendered with its
    arguments, a redirect, or an exception; flashed messages by their text. *)
Inductive Page (V : Type) : Type :=
| Shown (template : string) (flashed : option string) (view : V)
| Redirected (endpoint : string) (flashed : option string)
| Raised (e : PyExn).

Arguments Shown {V} template flashed view.
Arguments Redirected {V} endpoint flashed.
Arguments Raised {V} e.

Record LoginForm : Type := mkLoginForm
  { login_email : string; login_password : string }.

(** [login()].  [form] is [None] for a GET request.  [check_password_hash]
    is werkzeug's, applied to the stored hash and the submitted password.
    A successful login stores the name of the user in the session. *)
Definition login (check_password_hash : string -> string -> bool)
  (form : option LoginForm) (session : App.Session) (st : App.Store)
  : Page unit * App.Session :=
  match form with
  | None => (Shown "login.html" None tt, session)
  | Some f =>
      match next_or_none (fun u => String.eqb (App.email u) (login_email f))
              (App.users st) with
      | Some user =>
          if check_password_hash (App.password user) (login_password f)
          then (Redirected "dashboard" None, Some (App.name user))
          else (Shown "login.html"
                  (Some "User not registered or incorrect password") tt, session)
      | None =>
          (Shown "login.html"
             (Some "User not registered or incorrect password") tt, session)
      end
  end.

(** [logout()]. *)
Definition logout (session : App.Session) : Page unit * App.Session :=
  (Redirected "login" (Some "Logged out successfully"), None).

(** [[w["company"] for w in watchlists if w["user"] == session["user"]]],
    the list both [dashboard()] and [watchlist()] build. *)
Definition user_companies (st : App.Store) (username : string) : list string :=
  map App.w_company
    (List.filter (fun w => String.eqb (App.w_user w) username) (App.watchlists st)).

(** The arguments of the dashboard template. *)
Record DashboardView : Type := mkDashboardView
  { dash_stocks : list App.Stock; dash_user : string; dash_balance : float;
    dash_user_watchlist : list string }.

(** [dashboard()]. *)
Definition dashboard (data : App.DataFolder) (session : App.Session) (st : App.Store)
  : Page DashboardView * App.Session :=
  match session with
  | None => (Redirected "login" None, session)
  | Some username =>
      match App.get_user st session with
      | None => (Redirected "login" (Some "Session expired. Login again."), None)
      | Some user =>
          match App.load_latest_prices data with
          | None => (Raised PandasError, session)
          | Some stocks =>
              (Shown "dashboard.html" None
                 (mkDashboardView stocks username (App.balance user)
                    (user_companies st username)),
               session)
          end
      end
  end.

(** The arguments of the watchlist template. *)
Record WatchlistView : Type := mkWatchlistView
  { wl_watchlist : list App.Stock; wl_user : string; wl_balance : float }.

(** [watchlist()]: the prices of the companies the user watches.
    [user["balance"]] is read last, when the template is rendered. *)
Definition watchlist (data : App.DataFolder) (session : App.Session) (st : App.Store)
  : Page WatchlistView * App.Session :=
  match session with
  | None => (Redirected "login" None, session)
  | Some username =>
      match App.load_latest_prices data with
      | None => (Raised PandasError, session)
      | Some all_prices =>
          let watchlist_data :=
            List.filter
              (fun s => existsb (String.eqb (App.company s)) (user_companies st username))
              all_prices in
          match App.get_user st session with
          | None => (Raised TypeError, session)
          | Some user =>
              (Shown "watchlist.html" None
                 (mkWatchlistView watchlist_data username (App.balance user)),
               session)
          end
      end
  end.

End AppPages.

(** ** src/app_aws.py: sequences of requests *)
Module AppAwsRequests.

Inductive Request : Type :=
| POST_signup (form : AppAws.SignupForm) (hashed : string)
| POST_buy (data : AppAws.DataFolder) (session : AppAws.Session) (company : string)
    (form_quantity : option Z)
| GET_add_to_watchlist (session : AppAws.Session) (company : string).

Definition handle (ddb : AppAws.DynamoDB) (r : Request) (db : AppAws.Tables)
  : AppAws.Response * AppAws.Tables :=
  match r with
  | POST_signup f hashed => AppAws.signup (Some f) hashed db
  | POST_buy data s c q => AppAws.buy_stock ddb data s c q db
  | GET_add_to_watchlist s c => AppAws.add_to_watchlist s c db
  end.

(** The tables after a sequence of requests, served one after the other. *)
Definition run (ddb : AppAws.DynamoDB) (rs : list Request) (db : AppAws.Tables)
  : AppAws.Tables :=
  fold_left (fun d r => snd (handle ddb r d)) rs db.

End AppAwsRequests.

(** ** More predicates of the statements *)

(** What signup stores about a user besides the balance. *)
Definition account_of (u : App.User) : Z * string * string * string :=
  (App.user_id u, App.name u, App.email u, App.password u).

(** The shares a user holds of a company, over all the records. *)
Definition shares_held (st : App.Store) (username company : string) : Z :=
  fold_right Z.add 0
    (map App.quantity
       (List.filter (App.is_holding username company) (App.portfolio st))).

(** The user ids are 1, 2, ... in the order of the list. *)
Definition ids_count_up (st : App.Store) : Prop :=
  map App.user_id (App.users st)
  = map Z.of_nat (seq 1 (length (App.users st))).

(** Every holding record is of a configured company. *)
Definition holdings_configured (st : App.Store) : Prop :=
  Forall (fun h => COMPANIES_get (App.h_company h) <> None) (App.portfolio st).

(** The update [SET balance = balance - :amt], when DynamoDB accepts it,
    stores the exact difference. *)
Definition subtracts_exactly (ddb : AppAws.DynamoDB) : Prop :=
  forall b amt b', AppAws.update_balance ddb b amt = Some b' -> b' = b - amt.

(** A hash check that accepts everything, for the concrete scenarios. *)
Definition accept_all (hash password : string) : bool := true.

(** A data folder whose Zoom file cannot be read. *)
Definition data_without_zoom : App.DataFolder :=
  fun file =>
    if String.eqb file "Zoom.csv" then None
    else Some (100%float, "2024-01-02"%string).

(** Alice holds two Apple records, of 3 and of 4 shares, and Bob one. *)
Definition two_records_store : App.Store :=
  App.mkStore [alice; bob] []
    [App.mkHolding "alice" "Apple" 3 150%float;
     App.mkHolding "bob" "Apple" 5 151%float;
     App.mkHolding "alice" "Apple" 4 152%float].

(** * Properties *)

(** ** The worked scenario

    Balance 100000; buying 10 shares at 150 leaves 98500 and a holding of 10
    shares at 150; selling 4 of them at 160 leaves 99140 and 6 shares at 150.
    Selling the other 6 at 160 deletes the holding. *)
Example scenario_buy_10_sell_4 :
  App.run [App.POST_buy flat_data (Some "alice"%string) "Apple" (Some 10)] fresh_store
  = App.mkStore [App.set_balance 98500%float alice; bob] []
      [App.mkHolding "alice" "Apple" 10 150%float]
  /\ App.run [App.POST_buy flat_data (Some "alice"%string) "Apple" (Some 10);
              App.POST_sell (Some "alice"%string) "Apple" (Some 4) (Some 160%float)]
       fresh_store
     = App.mkStore [App.set_balance 99140%float alice; bob] []
         [App.mkHolding "alice" "Apple" 6 150%float]
  /\ App.run [App.POST_buy flat_data (Some "alice"%string) "Apple" (Some 10);
              App.POST_sell (Some "alice"%string) "Apple" (Some 4) (Some 160%float);
              App.POST_sell (Some "alice"%string) "Apple" (Some 6) (Some 160%float)]
       fresh_store
     = App.mkStore [App.set_balance 100100%float alice; bob] [] [].
Proof. repeat split; vm_compute; reflexivity. Qed.

(** ** Lists mutated through an alias *)
Section PyListFacts.
Context {A : Type}.
Implicit Types (p : A -> bool) (f : A -> A) (l : list A).

Lemma next_or_none_split p l x :
  next_or_none p l = Some x ->
  exists l1 l2, l = l1 ++ x :: l2 /\ p x = true /\ Forall (fun y => p y = false) l1.
Proof.
  unfold next_or_none. induction l as [|y t IH]; simpl; [discriminate|].
  destruct (p y) eqn:Hy.
  - intros [= ->]. exists [], t. repeat split; auto.
  - intros Hx. destruct (IH Hx) as (l1 & l2 & -> & Hp & Hl1).
    exists (y :: l1), l2. repeat split; auto.
Qed.

Lemma next_or_none_absent p l :
  next_or_none p l = None -> Forall (fun y => p y = false) l.
Proof.
  unfold next_or_none. induction l as [|y t IH]; simpl; [constructor|].
  destruct (p y) eqn:Hy; [discriminate|]. intros Hn. constructor; auto.
Qed.

Lemma mutate_first_at p f l1 x l2 :
  Forall (fun y => p y = false) l1 -> p x = true ->
  mutate_first p f (l1 ++ x :: l2) = l1 ++ f x :: l2.
Proof.
  induction 1 as [|y t Hy _ IH]; simpl; intros Hx.
  - now rewrite Hx.
  - rewrite Hy, IH; auto.
Qed.

Lemma remove_first_at p l1 x l2 :
  Forall (fun y => p y = false) l1 -> p x = true ->
  remove_first p (l1 ++ x :: l2) = l1 ++ l2.
Proof.
  induction 1 as [|y t Hy _ IH]; simpl; intros Hx.
  - now rewrite Hx.
  - rewrite Hy, IH; auto.
Qed.

Lemma mutate_first_absent p f l :
  Forall (fun y => p y = false) l -> mutate_first p f l = l.
Proof.
  induction 1 as [|y t Hy _ IH]; simpl; [reflexivity|]. now rewrite Hy, IH.
Qed.

Lemma Forall_mutate_first (P : A -> Prop) p f l :
  (forall x, P x -> P (f x)) -> Forall P l -> Forall P (mutate_first p f l).
Proof.
  intros Hf. induction 1 as [|y t Hy Ht IH]; simpl; [constructor|].
  destruct (p y); constructor; auto.
Qed.

Lemma Forall_remove_first (P : A -> Prop) p l :
  Forall P l -> Forall P (remove_first p l).
Proof.
  induction 1 as [|y t Hy Ht IH]; simpl; [constructor|].
  destruct (p y); [assumption|]. constructor; auto.
Qed.

End PyListFacts.

(** ** The decimal arithmetic of app_aws.py *)

Lemma digits10_fuel_spec (fuel : nat) (n : Z) :
  0 < n < 2 ^ Z.of_nat fuel ->
  0 < AppAws.digits10_fuel fuel n
  /\ 10 ^ (AppAws.digits10_fuel fuel n - 1) <= n < 10 ^ AppAws.digits10_fuel fuel n.
Proof.
  revert n. induction fuel as [|fuel IH]; intros n Hn.
  - simpl in Hn. lia.
  - cbn [AppAws.digits10_fuel].
    destruct (n <=? 0) eqn:Hle; [apply Z.leb_le in Hle; lia|].
    destruct (Z.eq_dec (n / 10) 0) as [Hz|Hnz].
    + rewrite Hz. replace (AppAws.digits10_fuel fuel 0) with 0 by (now destruct fuel).
      assert (n < 10) by (apply Z.div_small_iff in Hz; lia).
      simpl. lia.
    + assert (Hq : 0 < n / 10) by (pose proof (Z.div_pos n 10); lia).
      assert (Hfuel : n / 10 < 2 ^ Z.of_nat fuel).
      { rewrite Nat2Z.inj_succ, Z.pow_succ_r in Hn by lia.
        apply Z.div_lt_upper_bound; lia. }
      destruct (IH (n / 10) (conj Hq Hfuel)) as (Hd & Hlo & Hhi).
      set (d := AppAws.digits10_fuel fuel (n / 10)) in *.
      split; [lia|].
      replace (1 + d - 1) with (Z.succ (d - 1)) by lia.
      replace (1 + d) with (Z.succ d) by lia.
      rewrite !Z.pow_succ_r by lia.
      pose proof (Z.div_mod n 10 ltac:(lia)).
      pose proof (Z.mod_pos_bound n 10 ltac:(lia)).
      lia.
Qed.

(** [digits10 n] is the number of decimal digits of [n]. *)
Lemma digits10_spec (n : Z) :
  n <> 0 ->
  0 < AppAws.digits10 n
  /\ 10 ^ (AppAws.digits10 n - 1) <= Z.abs n < 10 ^ AppAws.digits10 n.
Proof.
  intros Hn. unfold AppAws.digits10. apply digits10_fuel_spec.
  split; [lia|].
  rewrite Nat2Z.inj_succ, Z2Nat.id by apply Z.log2_nonneg.
  apply Z.log2_spec. lia.
Qed.

(** The rounded number is a multiple of the unit of its last kept digit, at
    most half a unit from the number. *)
Lemma round_half_even_nearest (precision n : Z) :
  let step := 10 ^ Z.max 0 (AppAws.digits10 n - precision) in
  (step | AppAws.round_half_even precision n)
  /\ 2 * Z.abs (AppAws.round_half_even precision n - n) <= step.
Proof.
  cbv zeta. unfold AppAws.round_half_even.
  destruct (AppAws.digits10 n - precision <=? 0) eqn:Hex.
  - apply Z.leb_le in Hex. rewrite Z.max_l by lia. simpl.
    split; [apply Z.divide_1_l|]. rewrite Z.sub_diag. simpl. lia.
  - apply Z.leb_gt in Hex. rewrite Z.max_r by lia.
    set (step := 10 ^ (AppAws.digits10 n - precision)).
    assert (Hstep : 0 < step) by (apply Z.pow_pos_nonneg; lia).
    pose proof (Z.div_mod (Z.abs n) step ltac:(lia)) as Hdm.
    pose proof (Z.mod_pos_bound (Z.abs n) step Hstep) as Hr.
    set (q := Z.abs n / step) in *. set (r := Z.abs n mod step) in *.
    clearbody q r step.
    split.
    + apply Z.divide_mul_r. apply Z.divide_factor_r.
    + assert (Hcase : forall q', (q' = q /\ 2 * r <= step)
                                 \/ (q' = q + 1 /\ step <= 2 * r) ->
                2 * Z.abs (Z.sgn n * (q' * step) - n) <= step).
      { intros q' Hq'.
        replace n with (Z.sgn n * Z.abs n) at 2 by (rewrite Z.mul_comm; apply Z.abs_sgn).
        rewrite <- Z.mul_sub_distr_l, Z.abs_mul.
        assert (Z.abs (Z.sgn n) <= 1) by (destruct n; simpl; lia).
        assert (2 * Z.abs (q' * step - Z.abs n) <= step)
          by (destruct Hq' as [[-> ?]|[-> ?]]; lia).
        nia. }
      apply Hcase.
      destruct (2 * r ?= step) eqn:Hc.
      * apply Z.compare_eq in Hc.
        destruct (Z.even q); [left|right]; (split; [reflexivity|lia]).
      * rewrite Z.compare_lt_iff in Hc. left. split; [reflexivity|lia].
      * rewrite Z.compare_gt_iff in Hc. right. split; [reflexivity|lia].
Qed.

(** A product of at most 28 digits is exact. *)
Lemma Decimal_mul_exact (price : AppAws.Decimal) (qty : Z) :
  AppAws.digits10 (price * qty) <= 28 ->
  AppAws.Decimal_mul price qty = Some (price * qty).
Proof.
  intros Hd. unfold AppAws.Decimal_mul, AppAws.round_half_even.
  replace (AppAws.digits10 (price * qty) - 28 <=? 0) with true
    by (symmetry; apply Z.leb_le; lia).
  cbv zeta. replace (1000002 <? AppAws.digits10 (price * qty)) with false; [reflexivity|].
  symmetry. apply Z.ltb_ge. lia.
Qed.

(** The products Python's [decimal] gives, in hundredths: an exact one, two
    of more than 28 digits, a tie that keeps the even digit and a tie that
    moves to it. *)
Example Decimal_mul_examples :
  AppAws.Decimal_mul 15023 (-5) = Some (-75115)
  /\ AppAws.Decimal_mul 10000 (10 ^ 28 + 999) = Some (10 ^ 32 + 10000000)
  /\ AppAws.Decimal_mul 15023 (10 ^ 28 + 1001)
     = Some 150230000000000000000000015000000
  /\ AppAws.Decimal_mul 5 (3 * 10 ^ 27 + 1) = Some 15000000000000000000000000000
  /\ AppAws.Decimal_mul 5 (3 * 10 ^ 27 + 3) = Some 15000000000000000000000000020.
Proof. repeat split; vm_compute; reflexivity. Qed.

(** ** The valuation page reads only *)

Lemma portfolio_page_store (data : App.DataFolder) (session : App.Session)
  (st : App.Store) :
  snd (App.portfolio_page data session st) = st.
Proof.
  unfold App.portfolio_page. destruct session as [username|]; [|reflexivity].
  destruct (App.load_latest_prices data) as [prices|]; [|reflexivity].
  destruct (App.valuation_raises _ _); [reflexivity|].
  destruct (App.get_user _ _); reflexivity.
Qed.

(** ** Signup with a registered email *)

Lemma signup_registered_email (f : App.SignupForm) (hashed : string)
  (st : App.Store) (u : App.User) :
  In u (App.users st) -> App.email u = App.form_email f ->
  App.signup (Some f) hashed st
  = (App.Redirect "login" (Some App.EmailAlreadyRegistered), st).
Proof.
  intros Hin Hmail. unfold App.signup.
  replace (existsb _ (App.users st)) with true; [reflexivity|].
  symmetry. apply existsb_exists. exists u. split; [assumption|].
  rewrite Hmail. apply String.eqb_refl.
Qed.

Lemma aws_signup_registered_email (f : AppAws.SignupForm) (hashed : string)
  (db : AppAws.Tables) (item : AppAws.UserItem) :
  AppAws.users_table db !! AppAws.form_email f = Some item ->
  AppAws.signup (Some f) hashed db
  = (AppAws.Redirect "login" (Some AppAws.AccountAlreadyExists), db).
Proof. intros Hitem. unfold AppAws.signup. now rewrite Hitem. Qed.

(** C10.  Signing up with an email address that is already registered
    leaves the store unchanged, in both applications: the handler answers
    with the "already registered" message and returns the very store it was
    given, so no account is added and the registered account keeps its name,
    password and balance. *)
Theorem signup_duplicate_email_unchanged
  (f : App.SignupForm) (hashed : string) (st : App.Store) (u : App.User)
  (f' : AppAws.SignupForm) (hashed' : string) (db : AppAws.Tables)
  (item : AppAws.UserItem) :
  In u (App.users st) -> App.email u = App.form_email f ->
  AppAws.users_table db !! AppAws.form_email f' = Some item ->
  App.signup (Some f) hashed st
  = (App.Redirect "login" (Some App.EmailAlreadyRegistered), st)
  /\ AppAws.signup (Some f') hashed' db
     = (AppAws.Redirect "login" (Some AppAws.AccountAlreadyExists), db).
Proof.
  intros Hin Hmail Hitem. split.
  - now apply signup_registered_email with u.
  - now apply aws_signup_registered_email with item.
Qed.

Lemma signup_duplicate_email_unchanged_witness :
  App.signup (Some (App.mkSignupForm "mallory" "alice@example.com" "pw")) "h" fresh_store
  = (App.Redirect "login" (Some App.EmailAlreadyRegistered), fresh_store)
  /\ AppAws.signup (Some (AppAws.mkSignupForm "mallory" "alice@example.com" "pw")) "h"
       fresh_tables
     = (AppAws.Redirect "login" (Some AppAws.AccountAlreadyExists), fresh_tables).
Proof.
  apply (signup_duplicate_email_unchanged
           (App.mkSignupForm "mallory" "alice@example.com" "pw") "h" fresh_store alice
           (AppAws.mkSignupForm "mallory" "alice@example.com" "pw") "h" fresh_tables
           (AppAws.mkUserItem "alice" "scrypt:32768:8:1$salt$hash" 10000000)).
  - simpl. left. reflexivity.
  - reflexivity.
  - vm_compute. reflexivity.
Defined.

(** ** A buy that costs more than the balance *)

Lemma buy_insufficient_balance (data : App.DataFolder) (username company : string)
  (qty : Z) (st : App.Store) (user : App.User) (stocks : list App.Stock)
  (stock : App.Stock) (qf : float) :
  App.get_user st (Some username) = Some user ->
  App.load_latest_prices data = Some stocks ->
  next_or_none (fun s => String.eqb (App.company s) company) stocks = Some stock ->
  float_of_int qty = Some qf ->
  (App.balance user <? qf * App.price stock)%float = true ->
  App.buy_stock data (Some username) company (Some qty) st
  = (App.Redirect "dashboard" (Some App.InsufficientBalance), st).
Proof.
  intros Huser Hload Hstock Hqf Hlt. unfold App.buy_stock.
  now rewrite Huser, Hload, Hstock, Hqf, Hlt.
Qed.

Lemma aws_buy_insufficient_balance (ddb : AppAws.DynamoDB) (data : AppAws.DataFolder)
  (email company : string) (qty : Z) (db : AppAws.Tables) (user : AppAws.UserItem)
  (price total_cost : AppAws.Decimal) (day : string) :
  AppAws.get_latest_price data company = inr (price, day) ->
  AppAws.Decimal_mul price qty = Some total_cost ->
  AppAws.users_table db !! email = Some user ->
  AppAws.balance user < total_cost ->
  AppAws.buy_stock ddb data (Some email) company (Some qty) db
  = (AppAws.Redirect "dashboard" (Some AppAws.InsufficientBalance), db).
Proof.
  intros Hprice Hcost Huser Hlt. unfold AppAws.buy_stock. rewrite Hprice, Hcost. simpl.
  rewrite Huser. replace (total_cost >? AppAws.balance user) with true; [reflexivity|].
  symmetry. apply Z.gtb_lt. exact Hlt.
Qed.

(** C4, as the code has it.  When the cost of a buy, as the handler computes
    it, exceeds the cash balance of the account, the buy is refused with the
    "Insufficient balance" message and the store is returned as it was: no
    balance and no holding changes.  In app.py the cost is [float(qty) * price]
    in binary64, for a quantity that converts to a float; in app_aws.py it is
    [price * Decimal(qty)] rounded to 28 significant digits, for a product
    the decimal context can hold, whatever DynamoDB would answer to a write. *)
Theorem buy_over_balance_refused
  (data : App.DataFolder) (username company : string) (qty : Z) (st : App.Store)
  (user : App.User) (stocks : list App.Stock) (stock : App.Stock) (qf : float)
  (ddb : AppAws.DynamoDB) (data' : AppAws.DataFolder) (email company' : string)
  (qty' : Z) (db : AppAws.Tables) (user' : AppAws.UserItem)
  (price' total_cost' : AppAws.Decimal) (day : string) :
  App.get_user st (Some username) = Some user ->
  App.load_latest_prices data = Some stocks ->
  next_or_none (fun s => String.eqb (App.company s) company) stocks = Some stock ->
  float_of_int qty = Some qf ->
  (App.balance user <? qf * App.price stock)%float = true ->
  AppAws.get_latest_price data' company' = inr (price', day) ->
  AppAws.Decimal_mul price' qty' = Some total_cost' ->
  AppAws.users_table db !! email = Some user' ->
  AppAws.balance user' < total_cost' ->
  App.buy_stock data (Some username) company (Some qty) st
  = (App.Redirect "dashboard" (Some App.InsufficientBalance), st)
  /\ AppAws.buy_stock ddb data' (Some email) company' (Some qty') db
     = (AppAws.Redirect "dashboard" (Some AppAws.InsufficientBalance), db).
Proof.
  intros Huser Hload Hstock Hqf Hlt Hprice Hcost Huser' Hlt'. split.
  - eapply buy_insufficient_balance; eassumption.
  - eapply aws_buy_insufficient_balance; eassumption.
Qed.

Lemma buy_over_balance_refused_witness :
  App.buy_stock sample_data (Some "alice"%string) "Apple" (Some 1000) fresh_store
  = (App.Redirect "dashboard" (Some App.InsufficientBalance), fresh_store)
  /\ AppAws.buy_stock dynamodb_38_digits sample_data_aws
       (Some "alice@example.com"%string) "Apple" (Some 1000) fresh_tables
     = (AppAws.Redirect "dashboard" (Some AppAws.InsufficientBalance), fresh_tables).
Proof.
  refine (buy_over_balance_refused sample_data "alice" "Apple" 1000 fresh_store alice
            _ (App.mkStock "Apple" 150.23%float "2024-01-02") 1000%float
            dynamodb_38_digits sample_data_aws "alice@example.com" "Apple" 1000
            fresh_tables
            (AppAws.mkUserItem "alice" "scrypt:32768:8:1$salt$hash" 10000000)
            15023 15023000 "2024-01-02" _ _ _ _ _ _ _ _ _).
  - reflexivity.
  - vm_compute. reflexivity.
  - reflexivity.
  - vm_compute. reflexivity.
  - vm_compute. reflexivity.
  - reflexivity.
  - vm_compute. reflexivity.
  - vm_compute. reflexivity.
  - simpl. lia.
Defined.

(** A buy whose computed cost is at most the balance passes the balance
    test of app_aws.py, whatever DynamoDB answers afterwards. *)
Lemma aws_buy_passes_balance_test (ddb : AppAws.DynamoDB) (data : AppAws.DataFolder)
  (email company : string) (qty : Z) (db : AppAws.Tables) (user : AppAws.UserItem)
  (price total_cost : AppAws.Decimal) (day : string) :
  AppAws.get_latest_price data company = inr (price, day) ->
  AppAws.Decimal_mul price qty = Some total_cost ->
  AppAws.users_table db !! email = Some user ->
  total_cost <= AppAws.balance user ->
  fst (AppAws.buy_stock ddb data (Some email) company (Some qty) db)
  <> AppAws.Redirect "dashboard" (Some AppAws.InsufficientBalance).
Proof.
  intros Hprice Hcost Huser Hle. unfold AppAws.buy_stock. rewrite Hprice, Hcost. simpl.
  rewrite Huser. replace (total_cost >? AppAws.balance user) with false
    by (symmetry; rewrite Z.gtb_ltb; apply Z.ltb_ge; exact Hle).
  destruct (AppAws.update_balance ddb _ _); [|discriminate].
  destruct (AppAws.put_item_accepts ddb _); discriminate.
Qed.

(** C4 fails where the cost is not what the handler compares.  In app.py a
    buy of 10^400 Apple shares, far beyond the balance, is not answered
    "Insufficient balance": [qty * stock["price"]] raises [OverflowError]
    (the store is unchanged).  In app_aws.py a balance of
    1000000000000000000000000100000.00 does not pay for 10^28 + 1001 shares
    at 100.00, yet the product is rounded to 28 digits, to exactly the
    balance: the buy passes the balance test whatever DynamoDB answers, and
    with a service that takes the two writes it is answered "Bought" and
    leaves a balance of zero. *)
Lemma oversized_buy_not_refused :
  App.buy_stock sample_data (Some "alice"%string) "Apple" (Some (10 ^ 400)) fresh_store
  = (App.Raise OverflowError, fresh_store)
  /\ (let qty := 10 ^ 28 + 1001 in
      AppAws.get_user rich_tables (Some "alice@example.com"%string)
      = Some (AppAws.mkUserItem "alice" "scrypt:32768:8:1$salt$hash"
                (10 ^ 32 + 10000000))
      /\ AppAws.get_latest_price sample_data_aws "Tesla"
         = inr (10000, "2024-01-02"%string)
      /\ 10000 * qty > 10 ^ 32 + 10000000
      /\ AppAws.Decimal_mul 10000 qty = Some (10 ^ 32 + 10000000)
      /\ (forall ddb,
            fst (AppAws.buy_stock ddb sample_data_aws
                   (Some "alice@example.com"%string) "Tesla" (Some qty) rich_tables)
            <> AppAws.Redirect "dashboard" (Some AppAws.InsufficientBalance))
      /\ fst (AppAws.buy_stock dynamodb_38_digits sample_data_aws
                (Some "alice@example.com"%string) "Tesla" (Some qty) rich_tables)
         = AppAws.Redirect "portfolio_page" (Some (AppAws.Bought qty "Tesla"))
      /\ AppAws.users_table
           (snd (AppAws.buy_stock dynamodb_38_digits sample_data_aws
                   (Some "alice@example.com"%string) "Tesla" (Some qty) rich_tables))
           !! "alice@example.com"%string
         = Some (AppAws.mkUserItem "alice" "scrypt:32768:8:1$salt$hash" 0)).
Proof.
  split; [vm_compute; reflexivity|]. cbv zeta.
  split; [vm_compute; reflexivity|].
  split; [vm_compute; reflexivity|].
  split; [vm_compute; reflexivity|].
  split; [vm_compute; reflexivity|].
  split; [|split; vm_compute; reflexivity].
  intros ddb.
  apply (aws_buy_passes_balance_test ddb sample_data_aws "alice@example.com" "Tesla"
           (10 ^ 28 + 1001) rich_tables
           (AppAws.mkUserItem "alice" "scrypt:32768:8:1$salt$hash" (10 ^ 32 + 10000000))
           10000 (10 ^ 32 + 10000000) "2024-01-02").
  - reflexivity.
  - vm_compute. reflexivity.
  - vm_compute. reflexivity.
  - apply Z.leb_le. vm_compute. reflexivity.
Qed.

(** ** A sell of more than is held *)

(** The handler refuses as soon as the lookup fails or the record found has
    less than the quantity; nothing else is read before that. *)
Lemma sell_refused_unchanged (username company : string) (qty : Z) (sell_price : float)
  (st : App.Store) :
  match next_or_none (App.is_holding username company) (App.portfolio st) with
  | None => True
  | Some holding => App.quantity holding < qty
  end ->
  App.sell_stock (Some username) company (Some qty) (Some sell_price) st
  = (App.Redirect "portfolio_page" (Some App.NotEnoughQuantity), st).
Proof.
  unfold App.sell_stock.
  destruct (next_or_none _ _) as [holding|]; [|reflexivity].
  intros Hlt. apply Z.ltb_lt in Hlt. now rewrite Hlt.
Qed.

Lemma shares_held_not_negative (username company : string) (l : list App.Holding) :
  Forall (fun h => App.is_holding username company h = true -> 0 <= App.quantity h) l ->
  0 <= fold_right Z.add 0
         (map App.quantity (List.filter (App.is_holding username company) l)).
Proof.
  induction 1 as [|h t Hh _ IH]; simpl; [lia|].
  destruct (App.is_holding username company h); simpl; [|exact IH].
  specialize (Hh eq_refl). lia.
Qed.

(** C5, as the code has it.  The handler compares the quantity with the
    first record of the account for the symbol only.  So a sell of more than
    the account holds of the symbol, over all its records (nothing when it
    has none), is refused with "Not enough quantity to sell" and returns the
    store as it was, as long as none of these records has a negative
    quantity. *)
Theorem sell_more_than_held_refused (username company : string) (qty : Z)
  (sell_price : float) (st : App.Store) :
  Forall (fun h => App.is_holding username company h = true -> 0 <= App.quantity h)
    (App.portfolio st) ->
  shares_held st username company < qty ->
  App.sell_stock (Some username) company (Some qty) (Some sell_price) st
  = (App.Redirect "portfolio_page" (Some App.NotEnoughQuantity), st).
Proof.
  intros Hpos Hsum. apply sell_refused_unchanged.
  revert Hpos Hsum. unfold shares_held, next_or_none.
  induction (App.portfolio st) as [|h t IH]; simpl; [trivial|].
  intros Hpos. inversion Hpos as [|? ? Hh Ht]; subst.
  destruct (App.is_holding username company h); simpl.
  - specialize (Hh eq_refl).
    pose proof (shares_held_not_negative username company t Ht). lia.
  - exact (IH Ht).
Qed.

Lemma sell_more_than_held_refused_witness :
  App.sell_stock (Some "alice"%string) "Apple" (Some 8) (Some 160%float)
    two_records_store
  = (App.Redirect "portfolio_page" (Some App.NotEnoughQuantity), two_records_store).
Proof.
  apply (sell_more_than_held_refused "alice" "Apple" 8 160%float two_records_store).
  - repeat constructor; simpl; intros; lia.
  - vm_compute. reflexivity.
Defined.

(** C5 fails once a record is negative.  A buy of 10 Apple shares and a buy
    of -5 leave Alice two records, 5 shares in all; a sell of 7, more than
    she holds, is accepted against the first record: it is answered "Stock
    sold successfully", credits 7 * 160 and leaves the records 3 and -5. *)
Lemma sell_of_more_than_held_accepted :
  let st := App.run [App.POST_buy flat_data (Some "alice"%string) "Apple" (Some 10);
                     App.POST_buy flat_data (Some "alice"%string) "Apple" (Some (-5))]
              fresh_store in
  st = App.mkStore [App.set_balance 99250%float alice; bob] []
         [App.mkHolding "alice" "Apple" 10 150%float;
          App.mkHolding "alice" "Apple" (-5) 150%float]
  /\ shares_held st "alice" "Apple" = 5
  /\ App.sell_stock (Some "alice"%string) "Apple" (Some 7) (Some 160%float) st
     = (App.Redirect "portfolio_page" (Some App.StockSold),
        App.mkStore [App.set_balance 100370%float alice; bob] []
          [App.mkHolding "alice" "Apple" 3 150%float;
           App.mkHolding "alice" "Apple" (-5) 150%float]).
Proof. repeat split; vm_compute; reflexivity. Qed.

(** ** A symbol the price feed does not know *)

Lemma load_rows_unknown (data : App.DataFolder) (company : string)
  (cs : list (string * string)) (stocks : list App.Stock) :
  App.load_rows data cs = Some stocks ->
  find (fun kv => String.eqb (fst kv) company) cs = None ->
  next_or_none (fun s => String.eqb (App.company s) company) stocks = None.
Proof.
  unfold next_or_none. revert stocks.
  induction cs as [|[c file] rest IH]; simpl; intros stocks.
  - now intros [= <-].
  - destruct (data file) as [[close day]|]; [|discriminate].
    destruct (App.load_rows data rest) as [prices|]; [|discriminate].
    intros [= <-]. simpl. destruct (String.eqb c company); [discriminate|].
    now apply IH.
Qed.

(** In app.py a symbol outside [COMPANIES] is answered with "Stock not found"
    and the store is returned as it was. *)
Lemma buy_unknown_symbol (data : App.DataFolder) (username company : string)
  (qty : Z) (st : App.Store) (user : App.User) (stocks : list App.Stock) :
  COMPANIES_get company = None ->
  App.get_user st (Some username) = Some user ->
  App.load_latest_prices data = Some stocks ->
  App.buy_stock data (Some username) company (Some qty) st
  = (App.Redirect "dashboard" (Some App.StockNotFound), st).
Proof.
  intros Hunknown Huser Hload. unfold App.buy_stock. rewrite Huser, Hload.
  rewrite (load_rows_unknown data company COMPANIES stocks Hload); [reflexivity|].
  unfold COMPANIES_get in Hunknown.
  destruct (find _ COMPANIES); [discriminate|reflexivity].
Qed.

Lemma buy_unknown_symbol_DOGE (qty : Z) :
  App.buy_stock sample_data (Some "alice"%string) "DOGE" (Some qty) fresh_store
  = (App.Redirect "dashboard" (Some App.StockNotFound), fresh_store).
Proof.
  eapply buy_unknown_symbol; [reflexivity | reflexivity | cbv; reflexivity].
Qed.

(** In app_aws.py a symbol outside [COMPANIES] makes [get_latest_price]
    raise, whatever the tables hold. *)
Lemma aws_buy_unknown_symbol (ddb : AppAws.DynamoDB) (data : AppAws.DataFolder)
  (email company : string) (qty : Z) (db : AppAws.Tables) :
  COMPANIES_get company = None ->
  AppAws.buy_stock ddb data (Some email) company (Some qty) db
  = (AppAws.Raise KeyError, db).
Proof.
  intros Hunknown. unfold AppAws.buy_stock, AppAws.get_latest_price.
  now rewrite Hunknown.
Qed.

(** C8.  What app_aws.py does for the unknown symbol "DOGE": for a logged-in
    user and a quantity that parses, [get_latest_price] evaluates
    [COMPANIES["DOGE"]] and the [KeyError] leaves the handler.  The tables are
    untouched, but the caller gets an unhandled exception where app.py (see
    [buy_unknown_symbol]) answers "Stock not found". *)
Theorem aws_buy_unknown_symbol_raises (ddb : AppAws.DynamoDB)
  (data : AppAws.DataFolder) (email : string) (qty : Z) (db : AppAws.Tables) :
  AppAws.buy_stock ddb data (Some email) "DOGE" (Some qty) db
  = (AppAws.Raise KeyError, db).
Proof. reflexivity. Qed.

(** ** Quantities that are not positive integers *)

(** C6, as far as the code has it.  A quantity that does not parse makes
    app.py's buy answer "Invalid quantity" before anything is read or
    written: whatever the company and the data folder, the store is returned
    as it was (for a session with a registered user, the checks that come
    first). *)
Theorem unparsable_quantity_invalid
  (data : App.DataFolder) (session : App.Session) (company : string)
  (st : App.Store) (user : App.User) :
  App.get_user st session = Some user ->
  App.buy_stock data session company None st
  = (App.Redirect "dashboard" (Some App.InvalidQuantity), st).
Proof.
  intros Huser. unfold App.buy_stock. destruct session as [username|]; [|discriminate].
  now rewrite Huser.
Qed.

Lemma unparsable_quantity_invalid_witness :
  App.buy_stock sample_data (Some "alice"%string) "Apple" None fresh_store
  = (App.Redirect "dashboard" (Some App.InvalidQuantity), fresh_store).
Proof.
  apply (unparsable_quantity_invalid sample_data (Some "alice"%string) "Apple"
           fresh_store alice).
  reflexivity.
Defined.

(** The sell of app.py and the buy of app_aws.py convert the quantity
    outside any [try]: on text that does not parse the exception leaves the
    handler, where the buy of app.py answers "Invalid quantity". *)
Lemma unparsable_quantity_escapes (username company : string)
  (form_sell_price : option float) (st : App.Store)
  (ddb : AppAws.DynamoDB) (data : AppAws.DataFolder) (email : string)
  (db : AppAws.Tables) :
  App.sell_stock (Some username) company None form_sell_price st
  = (App.Raise FormFieldError, st)
  /\ AppAws.buy_stock ddb data (Some email) company None db
     = (AppAws.Raise FormFieldError, db).
Proof. split; reflexivity. Qed.

(** C6 fails for the quantities zero and minus five: both buys go through
    in app.py.  The first records a holding of no shares; the second credits
    the account with 751.15 and records a holding of minus five shares.  In
    app_aws.py the buy of minus five shares passes the balance test as well
    and is answered "Bought -5 shares of Apple". *)
Lemma nonpositive_quantity_accepted :
  App.buy_stock sample_data (Some "alice"%string) "Apple" (Some 0) fresh_store
  = (App.Redirect "portfolio_page" (Some (App.Bought 0 "Apple")),
     App.mkStore [alice; bob] [] [App.mkHolding "alice" "Apple" 0 150.23%float])
  /\ App.buy_stock sample_data (Some "alice"%string) "Apple" (Some (-5)) fresh_store
     = (App.Redirect "portfolio_page" (Some (App.Bought (-5) "Apple")),
        App.mkStore [App.set_balance 100751.15%float alice; bob] []
          [App.mkHolding "alice" "Apple" (-5) 150.23%float])
  /\ (let bought := AppAws.buy_stock dynamodb_38_digits sample_data_aws
                      (Some "alice@example.com"%string) "Apple" (Some (-5))
                      fresh_tables in
      fst bought = AppAws.Redirect "portfolio_page" (Some (AppAws.Bought (-5) "Apple"))
      /\ AppAws.users_table (snd bought) !! "alice@example.com"%string
         = Some (AppAws.mkUserItem "alice" "scrypt:32768:8:1$salt$hash" 10075115)
      /\ AppAws.portfolio_table (snd bought) !! ("alice@example.com", "Apple")%string
         = Some (AppAws.mkPortfolioItem (-5) 15023)).
Proof. repeat split; vm_compute; reflexivity. Qed.

(** ** Holdings keep a positive quantity *)

Lemma buy_quantities_positive (data : App.DataFolder) (session : App.Session)
  (company : string) (form_quantity : option Z) (st : App.Store) :
  match form_quantity with Some qty => 0 < qty | None => True end ->
  quantities_positive st ->
  quantities_positive (snd (App.buy_stock data session company form_quantity st)).
Proof.
  intros Hq Hst. unfold App.buy_stock.
  destruct session as [username|]; [|exact Hst].
  destruct (App.get_user st (Some username)); [|exact Hst].
  destruct form_quantity as [qty|]; [|exact Hst].
  destruct (App.load_latest_prices data); [|exact Hst].
  destruct (next_or_none _ _) as [stock|]; [|exact Hst].
  destruct (float_of_int qty); [|exact Hst].
  destruct (_ <? _)%float; [exact Hst|].
  unfold quantities_positive. simpl. apply Forall_app. split; [exact Hst|].
  constructor; [exact Hq|constructor].
Qed.

Lemma is_holding_set_quantity (username company : string) (q : Z) (h : App.Holding) :
  App.is_holding username company (App.set_quantity q h)
  = App.is_holding username company h.
Proof. reflexivity. Qed.

Lemma sell_quantities_positive (session : App.Session) (company : string)
  (form_quantity : option Z) (form_sell_price : option float) (st : App.Store) :
  quantities_positive st ->
  quantities_positive
    (snd (App.sell_stock session company form_quantity form_sell_price st)).
Proof.
  intros Hst. unfold App.sell_stock.
  destruct session as [username|]; [|exact Hst].
  destruct form_quantity as [qty|]; [|exact Hst].
  destruct form_sell_price as [sell_price|]; [|exact Hst].
  destruct (next_or_none _ _) as [holding|] eqn:Hfind; [|exact Hst].
  destruct (App.quantity holding <? qty) eqn:Hlt; [exact Hst|].
  destruct (App.get_user st (Some username)); [|exact Hst].
  destruct (float_of_int qty); [|exact Hst].
  apply Z.ltb_ge in Hlt. unfold quantities_positive in *. simpl.
  destruct (next_or_none_split _ _ _ Hfind) as (l1 & l2 & Hl & Hp & Hl1).
  rewrite Hl in *. rewrite mutate_first_at by assumption.
  apply Forall_app in Hst as [H1 H2]. inversion H2 as [|? ? _ H3]; subst.
  destruct (_ =? 0) eqn:Hz.
  - rewrite remove_first_at by assumption. apply Forall_app. now split.
  - apply Z.eqb_neq in Hz. apply Forall_app. split; [assumption|].
    constructor; [simpl; lia|assumption].
Qed.

Lemma handle_quantities_positive (r : App.Request) (st : App.Store) :
  buys_positive r -> quantities_positive st ->
  quantities_positive (snd (App.handle r st)).
Proof.
  destruct r as [f hashed|data s c q|s c q p|s c|data s]; simpl; intros Hr Hst.
  - unfold App.signup. now destruct (existsb _ _).
  - apply buy_quantities_positive; [|assumption]. now destruct q.
  - now apply sell_quantities_positive.
  - unfold App.add_to_watchlist. destruct s; [|assumption]. now destruct (existsb _ _).
  - now rewrite portfolio_page_store.
Qed.

Lemma remove_first_mutate_first {A : Type} (p : A -> bool) (f : A -> A) (l : list A) :
  (forall x, p (f x) = p x) ->
  remove_first p (mutate_first p f l) = remove_first p l.
Proof.
  intros Hf. induction l as [|x t IH]; simpl; [reflexivity|].
  destruct (p x) eqn:Hx; simpl.
  - now rewrite Hf, Hx.
  - now rewrite Hx, IH.
Qed.

(** An accepted sell of all the shares of the record found deletes that
    record and touches no other record. *)
Lemma sell_all_deletes_record (username company : string) (qty : Z)
  (sell_price : float) (st st' : App.Store) (h : App.Holding) :
  next_or_none (App.is_holding username company) (App.portfolio st) = Some h ->
  App.quantity h = qty ->
  App.sell_stock (Some username) company (Some qty) (Some sell_price) st
  = (App.Redirect "portfolio_page" (Some App.StockSold), st') ->
  App.portfolio st' = remove_first (App.is_holding username company) (App.portfolio st).
Proof.
  intros Hfind Hqty. unfold App.sell_stock. rewrite Hfind.
  destruct (App.quantity h <? qty); [discriminate|].
  destruct (App.get_user st (Some username)); [|discriminate].
  destruct (float_of_int qty); [|discriminate].
  intros [= <-]. simpl. replace (App.quantity h - qty =? 0) with true
    by (symmetry; apply Z.eqb_eq; lia).
  apply remove_first_mutate_first. intros x. apply is_holding_set_quantity.
Qed.

Lemma run_quantities_positive (rs : list App.Request) (st : App.Store) :
  Forall buys_positive rs -> quantities_positive st ->
  quantities_positive (App.run rs st).
Proof.
  unfold App.run. intros Hrs. revert st.
  induction Hrs as [|r rs Hr _ IH]; simpl; intros st Hst; [assumption|].
  apply IH. now apply handle_quantities_positive.
Qed.

(** From the empty lists the application starts with. *)
Lemma quantities_positive_from_start (rs : list App.Request) :
  Forall buys_positive rs -> quantities_positive (App.run rs App.start).
Proof. intros Hrs. apply run_quantities_positive; [assumption|constructor]. Qed.

(** C2, as the code has it.  When every buy of the sequence asks for a
    positive quantity, every holding record has a positive quantity after
    the sequence, given that it was so before; the sells may carry any
    quantity.  And an accepted sell of all the shares of a record deletes
    the record: the portfolio afterwards is the portfolio without it. *)
Theorem quantities_stay_positive (rs : list App.Request) (st : App.Store)
  (username company : string) (qty : Z) (sell_price : float)
  (st0 st0' : App.Store) (h : App.Holding) :
  Forall buys_positive rs -> quantities_positive st ->
  next_or_none (App.is_holding username company) (App.portfolio st0) = Some h ->
  App.quantity h = qty ->
  App.sell_stock (Some username) company (Some qty) (Some sell_price) st0
  = (App.Redirect "portfolio_page" (Some App.StockSold), st0') ->
  quantities_positive (App.run rs st)
  /\ App.portfolio st0'
     = remove_first (App.is_holding username company) (App.portfolio st0).
Proof.
  intros Hrs Hst Hfind Hqty Hsell. split.
  - now apply run_quantities_positive.
  - now apply sell_all_deletes_record with qty sell_price h.
Qed.

Lemma quantities_stay_positive_witness :
  quantities_positive
    (App.run [App.POST_buy sample_data (Some "alice"%string) "Apple" (Some 10);
              App.POST_sell (Some "alice"%string) "Apple" (Some 10) (Some 160%float)]
       fresh_store)
  /\ App.portfolio
       (App.mkStore [App.set_balance 101600%float alice; bob] [] [])
     = remove_first (App.is_holding "alice" "Apple") (App.portfolio holding_store).
Proof.
  apply (quantities_stay_positive
           [App.POST_buy sample_data (Some "alice"%string) "Apple" (Some 10);
            App.POST_sell (Some "alice"%string) "Apple" (Some 10) (Some 160%float)]
           fresh_store "alice" "Apple" 10 160%float holding_store
           (App.mkStore [App.set_balance 101600%float alice; bob] [] [])
           (App.mkHolding "alice" "Apple" 10 150%float)).
  - repeat constructor.
  - constructor.
  - reflexivity.
  - reflexivity.
  - vm_compute. reflexivity.
Defined.

(** C2 fails when a buy asks for minus five shares: the buy goes through
    and the portfolio holds a record whose quantity is negative. *)
Lemma negative_quantity_held :
  App.portfolio
    (App.run [App.POST_buy sample_data (Some "alice"%string) "Apple" (Some (-5))]
       fresh_store)
  = [App.mkHolding "alice" "Apple" (-5) 150.23%float]
  /\ ~ quantities_positive
       (App.run [App.POST_buy sample_data (Some "alice"%string) "Apple" (Some (-5))]
          fresh_store).
Proof.
  assert (Hrun : App.portfolio
    (App.run [App.POST_buy sample_data (Some "alice"%string) "Apple" (Some (-5))]
       fresh_store) = [App.mkHolding "alice" "Apple" (-5) 150.23%float])
    by (vm_compute; reflexivity).
  split; [exact Hrun|].
  unfold quantities_positive. rewrite Hrun. intros H.
  inversion H as [|? ? Hneg _]; subst. simpl in Hneg. lia.
Qed.

(** ** A second buy of a symbol already held *)

Lemma next_or_none_app_found {A : Type} (p : A -> bool) (l l' : list A) (x : A) :
  next_or_none p l = Some x -> next_or_none p (l ++ l') = Some x.
Proof.
  unfold next_or_none. induction l as [|y t IH]; simpl; [discriminate|].
  now destruct (p y).
Qed.

Lemma buy_accepted (data : App.DataFolder) (username company : string) (qty : Z)
  (st : App.Store) (user : App.User) (stocks : list App.Stock) (stock : App.Stock)
  (qf : float) :
  App.get_user st (Some username) = Some user ->
  App.load_latest_prices data = Some stocks ->
  next_or_none (fun s => String.eqb (App.company s) company) stocks = Some stock ->
  float_of_int qty = Some qf ->
  (App.balance user <? qf * App.price stock)%float = false ->
  App.buy_stock data (Some username) company (Some qty) st
  = (App.Redirect "portfolio_page" (Some (App.Bought qty company)),
     App.mkStore
       (mutate_first (App.is_named username)
          (fun u => App.set_balance (App.balance u - qf * App.price stock)%float u)
          (App.users st))
       (App.watchlists st)
       (App.portfolio st ++ [App.mkHolding username company qty (App.price stock)])).
Proof.
  intros Huser Hload Hstock Hqf Hlt. unfold App.buy_stock.
  now rewrite Huser, Hload, Hstock, Hqf, Hlt.
Qed.

(** A buy that is not answered "Bought" returns the store it was given. *)
Lemma buy_not_accepted_unchanged (data : App.DataFolder) (session : App.Session)
  (company : string) (form_quantity : option Z) (st : App.Store) :
  (forall qty c, fst (App.buy_stock data session company form_quantity st)
                 <> App.Redirect "portfolio_page" (Some (App.Bought qty c))) ->
  snd (App.buy_stock data session company form_quantity st) = st.
Proof.
  unfold App.buy_stock.
  destruct session as [username|]; [|reflexivity].
  destruct (App.get_user st (Some username)); [|reflexivity].
  destruct form_quantity as [qty|]; [|reflexivity].
  destruct (App.load_latest_prices data); [|reflexivity].
  destruct (next_or_none _ _) as [stock|]; [|reflexivity].
  destruct (float_of_int qty); [|reflexivity].
  destruct (_ <? _)%float; [reflexivity|].
  simpl. intros H. now destruct (H qty company).
Qed.

(** C3, as the code has it.  For an account that already holds the symbol
    in a record [old], an accepted buy of [qty] shares at the feed price
    leaves [old] as it is, still the first record of the account for the
    symbol, and appends a separate record of [qty] shares at that price: the
    account's records for the symbol are the former ones followed by the new
    one.  Quantities are not added and no average price is computed. *)
Theorem buy_again_appends_record
  (data : App.DataFolder) (username company : string) (qty : Z) (st : App.Store)
  (user : App.User) (stocks : list App.Stock) (stock : App.Stock) (qf : float)
  (old : App.Holding) :
  next_or_none (App.is_holding username company) (App.portfolio st) = Some old ->
  App.get_user st (Some username) = Some user ->
  App.load_latest_prices data = Some stocks ->
  next_or_none (fun s => String.eqb (App.company s) company) stocks = Some stock ->
  float_of_int qty = Some qf ->
  (App.balance user <? qf * App.price stock)%float = false ->
  let new := App.mkHolding username company qty (App.price stock) in
  let st' := snd (App.buy_stock data (Some username) company (Some qty) st) in
  fst (App.buy_stock data (Some username) company (Some qty) st)
  = App.Redirect "portfolio_page" (Some (App.Bought qty company))
  /\ App.portfolio st' = App.portfolio st ++ [new]
  /\ next_or_none (App.is_holding username company) (App.portfolio st') = Some old
  /\ List.filter (App.is_holding username company) (App.portfolio st')
     = List.filter (App.is_holding username company) (App.portfolio st) ++ [new].
Proof.
  intros Hold Huser Hload Hstock Hqf Hlt new st'. subst st'.
  rewrite (buy_accepted data username company qty st user stocks stock qf) by assumption.
  simpl. repeat split.
  - now apply next_or_none_app_found.
  - rewrite List.filter_app. simpl. unfold App.is_holding at 2. simpl.
    now rewrite !String.eqb_refl.
Qed.

Lemma buy_again_appends_record_witness :
  let st' := snd (App.buy_stock sample_data (Some "alice"%string) "Apple" (Some 5)
                    holding_store) in
  App.portfolio st'
  = [App.mkHolding "alice" "Apple" 10 150%float;
     App.mkHolding "alice" "Apple" 5 150.23%float]
  /\ next_or_none (App.is_holding "alice" "Apple") (App.portfolio st')
     = Some (App.mkHolding "alice" "Apple" 10 150%float).
Proof.
  pose proof (buy_again_appends_record sample_data "alice" "Apple" 5 holding_store alice
                _ (App.mkStock "Apple" 150.23%float "2024-01-02") 5%float
                (App.mkHolding "alice" "Apple" 10 150%float)
                eq_refl eq_refl eq_refl eq_refl eq_refl eq_refl)
    as H.
  simpl in H. destruct H as (_ & Hp & Hold & _).
  split; [exact Hp|exact Hold].
Defined.

(** C3 fails when Alice, who holds ten Apple shares bought at 150, buys five
    more at 150.23: app.py then lists two Apple records for her, the old one
    and one of five shares, and no single record for the pair; app_aws.py
    keeps one item, of five shares at 150.23, not of fifteen at the average. *)
Lemma second_buy_not_merged :
  let st' := snd (App.buy_stock sample_data (Some "alice"%string) "Apple" (Some 5)
                    holding_store) in
  let db' := snd (AppAws.buy_stock dynamodb_38_digits sample_data_aws
                    (Some "alice@example.com"%string) "Apple" (Some 5)
                    holding_tables) in
  List.filter (App.is_holding "alice" "Apple") (App.portfolio st')
  = [App.mkHolding "alice" "Apple" 10 150%float;
     App.mkHolding "alice" "Apple" 5 150.23%float]
  /\ (forall merged, List.filter (App.is_holding "alice" "Apple") (App.portfolio st')
                     <> [merged])
  /\ AppAws.portfolio_table db' !! ("alice@example.com", "Apple")%string
     = Some (AppAws.mkPortfolioItem 5 15023).
Proof.
  assert (H : List.filter (App.is_holding "alice" "Apple")
                (App.portfolio (snd (App.buy_stock sample_data (Some "alice"%string)
                                       "Apple" (Some 5) holding_store)))
              = [App.mkHolding "alice" "Apple" 10 150%float;
                 App.mkHolding "alice" "Apple" 5 150.23%float])
    by (vm_compute; reflexivity).
  cbv zeta. rewrite H. split; [reflexivity|]. split.
  - intros merged. discriminate.
  - vm_compute. reflexivity.
Qed.

(** ** What a sell changes *)

(** C9.  An accepted sell changes two records and nothing else.  In [users]
    it is the record [get_user] returns for the session, the first with the
    session's name: only its balance changes, by the proceeds.  In
    [portfolio] it is the first record of that user for the company: its
    quantity drops by the quantity sold and its user, company and buy price
    stay, or the record is deleted when the quantity reaches zero.  Every
    other user record, every other holding record, their order, and the
    watchlists are the same before and after. *)
Theorem sell_changes_one_balance_one_holding
  (username company : string) (qty : Z) (sell_price : float) (st st' : App.Store) :
  App.sell_stock (Some username) company (Some qty) (Some sell_price) st
  = (App.Redirect "portfolio_page" (Some App.StockSold), st') ->
  exists (us1 us2 : list App.User) (u : App.User)
         (hs1 hs2 : list App.Holding) (h : App.Holding) (qf : float),
    App.get_user st (Some username) = Some u
    /\ next_or_none (App.is_holding username company) (App.portfolio st) = Some h
    /\ float_of_int qty = Some qf
    /\ App.users st = us1 ++ u :: us2
    /\ Forall (fun v => App.is_named username v = false) us1
    /\ App.portfolio st = hs1 ++ h :: hs2
    /\ Forall (fun p => App.is_holding username company p = false) hs1
    /\ App.users st'
       = us1 ++ App.mkUser (App.user_id u) (App.name u) (App.email u) (App.password u)
                  (App.balance u + sell_price * qf)%float :: us2
    /\ App.portfolio st'
       = hs1 ++ (if App.quantity h - qty =? 0 then []
                 else [App.mkHolding (App.h_user h) (App.h_company h)
                         (App.quantity h - qty) (App.buy_price h)]) ++ hs2
    /\ App.watchlists st' = App.watchlists st.
Proof.
  unfold App.sell_stock.
  destruct (next_or_none _ (App.portfolio st)) as [h|] eqn:Hfind; [|discriminate].
  destruct (App.quantity h <? qty); [discriminate|].
  destruct (App.get_user st (Some username)) as [u|] eqn:Huser; [|discriminate].
  destruct (float_of_int qty) as [qf|]; [|discriminate].
  intros [= <-].
  destruct (next_or_none_split _ _ _ Hfind) as (hs1 & hs2 & Hhs & Hh & Hhs1).
  assert (Hnamed : next_or_none (App.is_named username) (App.users st) = Some u).
  { revert Huser. unfold App.get_user. now destruct (String.eqb username EmptyString). }
  destruct (next_or_none_split _ _ _ Hnamed) as (us1 & us2 & Hus & Hu & Hus1).
  exists us1, us2, u, hs1, hs2, h, qf. simpl.
  rewrite Hus, Hhs. rewrite !mutate_first_at by assumption.
  repeat split; try reflexivity; try assumption.
  destruct (_ =? 0); [|reflexivity].
  now rewrite remove_first_at.
Qed.

Lemma sell_changes_one_balance_one_holding_witness :
  exists (us1 us2 : list App.User) (u : App.User)
         (hs1 hs2 : list App.Holding) (h : App.Holding) (qf : float),
    App.get_user holding_store (Some "alice"%string) = Some u
    /\ next_or_none (App.is_holding "alice" "Apple") (App.portfolio holding_store) = Some h
    /\ float_of_int 4 = Some qf
    /\ App.users holding_store = us1 ++ u :: us2
    /\ Forall (fun v => App.is_named "alice" v = false) us1
    /\ App.portfolio holding_store = hs1 ++ h :: hs2
    /\ Forall (fun p => App.is_holding "alice" "Apple" p = false) hs1
    /\ App.users (App.mkStore [App.set_balance 100640%float alice; bob] []
                    [App.mkHolding "alice" "Apple" 6 150%float])
       = us1 ++ App.mkUser (App.user_id u) (App.name u) (App.email u) (App.password u)
                  (App.balance u + 160 * qf)%float :: us2
    /\ App.portfolio (App.mkStore [App.set_balance 100640%float alice; bob] []
                        [App.mkHolding "alice" "Apple" 6 150%float])
       = hs1 ++ (if App.quantity h - 4 =? 0 then []
                 else [App.mkHolding (App.h_user h) (App.h_company h)
                         (App.quantity h - 4) (App.buy_price h)]) ++ hs2
    /\ App.watchlists (App.mkStore [App.set_balance 100640%float alice; bob] []
                         [App.mkHolding "alice" "Apple" 6 150%float])
       = App.watchlists holding_store.
Proof.
  apply (sell_changes_one_balance_one_holding "alice" "Apple" 4 160%float holding_store).
  vm_compute. reflexivity.
Defined.

(** ** Signs in binary64 arithmetic *)

Lemma ltb_zero_negative (x : float) : (x <? 0)%float = SFnegative (Prim2SF x).
Proof.
  rewrite ltb_spec. change (Prim2SF 0) with (S754_zero false).
  now destruct (Prim2SF x) as [[]|[]| |[] m e].
Qed.

Lemma binary_round_aux_sign (m e : Z) (l : location) :
  SFnegative (binary_round_aux prec emax false m e l) = false.
Proof.
  unfold binary_round_aux.
  destruct (shr_fexp prec emax m e l) as [mrs' e'].
  destruct (shr_fexp prec emax _ e' loc_Exact) as [mrs'' e''].
  destruct (shr_m mrs''); [reflexivity| |reflexivity].
  now destruct (e'' <=? emax - prec).
Qed.

Lemma binary_round_sign (m : positive) (e : Z) :
  SFnegative (binary_round prec emax false m e) = false.
Proof.
  unfold binary_round. destruct (shl_align _ _ _) as [mz ez].
  apply binary_round_aux_sign.
Qed.

Lemma binary_normalize_sign (m e : Z) :
  0 <= m -> SFnegative (binary_normalize prec emax m e false) = false.
Proof.
  destruct m as [|m|m]; simpl; intros Hm; [reflexivity| |lia].
  apply binary_round_sign.
Qed.

Lemma mul_not_negative (x y : float) :
  (x <? 0)%float = false -> (y <? 0)%float = false -> (x * y <? 0)%float = false.
Proof.
  rewrite !ltb_zero_negative, mul_spec. unfold SF64mul.
  destruct (Prim2SF x) as [sx|sx| |sx mx ex], (Prim2SF y) as [sy|sy| |sy my ey];
    simpl; try reflexivity; try (destruct sx; discriminate);
    try (destruct sy; discriminate); try (destruct sx, sy; (discriminate || reflexivity)).
  destruct sx; [discriminate|]. destruct sy; [discriminate|]. intros _ _.
  apply binary_round_aux_sign.
Qed.

Lemma add_not_negative (x y : float) :
  (x <? 0)%float = false -> (y <? 0)%float = false -> (x + y <? 0)%float = false.
Proof.
  rewrite !ltb_zero_negative, add_spec. unfold SF64add.
  destruct (Prim2SF x) as [sx|sx| |sx mx ex], (Prim2SF y) as [sy|sy| |sy my ey];
    simpl; try reflexivity; try (destruct sx; (discriminate || reflexivity));
    try (destruct sy; (discriminate || reflexivity));
    try (destruct sx, sy; (discriminate || reflexivity)).
  destruct sx; [discriminate|]. destruct sy; [discriminate|]. intros _ _.
  apply binary_normalize_sign. simpl. lia.
Qed.

(** The number of binary digits of a mantissa. *)
Lemma digits2_pos_size (m : positive) : digits2_pos m = Pos.size m.
Proof. induction m; simpl; congruence. Qed.

Lemma digits2_pos_bounds (m : positive) :
  2 ^ (Z.pos (digits2_pos m) - 1) <= Z.pos m < 2 ^ Z.pos (digits2_pos m).
Proof.
  rewrite digits2_pos_size. split.
  - pose proof (Pos.size_le m) as H.
    assert (H2 : 2 ^ Z.pos (Pos.size m) <= 2 * Z.pos m).
    { rewrite <- Pos2Z.inj_pow. change (2 * Z.pos m) with (Z.pos m~0). exact H. }
    replace (Z.pos (Pos.size m)) with (Z.succ (Z.pos (Pos.size m) - 1)) in H2 by lia.
    rewrite Z.pow_succ_r in H2 by lia. lia.
  - pose proof (Pos.size_gt m) as H. rewrite <- Pos2Z.inj_pow. exact H.
Qed.

Lemma shl_align_lower (m : positive) (e e' : Z) :
  e' <= e -> Z.pos (fst (shl_align m e e')) = Z.pos m * 2 ^ (e - e').
Proof.
  intros He. unfold shl_align. destruct (e' - e) as [|d|d] eqn:Hd; simpl.
  - replace (e - e') with 0 by lia. lia.
  - lia.
  - replace (e - e') with (Z.pos d) by lia.
    change (Pos.iter xO m d) with (shift_pos d m).
    rewrite shift_pos_correct. change (Zpower_pos 2 d) with (2 ^ Z.pos d). lia.
Qed.

(** A valid finite float has at most [prec] digits, and exactly [prec]
    above the smallest exponent. *)
Lemma bounded_digits (m : positive) (e : Z) :
  bounded prec emax m e = true ->
  Z.pos (digits2_pos m) <= prec /\ emin <= e
  /\ (emin < e -> Z.pos (digits2_pos m) = prec).
Proof.
  unfold bounded, canonical_mantissa, fexp. intros H.
  apply andb_prop in H as [H _]. apply Z.eqb_eq in H.
  unfold SpecFloat.emin, prec, emax in *. lia.
Qed.

(** Of two valid positive floats, the one with the larger exponent is the
    larger number. *)
Lemma bounded_exponent_order (mx my : positive) (ex ey : Z) :
  bounded prec emax mx ex = true -> bounded prec emax my ey = true ->
  ey < ex -> Z.pos my <= Z.pos mx * 2 ^ (ex - ey).
Proof.
  intros Hx Hy Hlt.
  destruct (bounded_digits mx ex Hx) as (_ & _ & Hdx).
  destruct (bounded_digits my ey Hy) as (Hdy & Hey & _).
  specialize (Hdx ltac:(lia)).
  pose proof (digits2_pos_bounds mx) as [Hmx _].
  pose proof (digits2_pos_bounds my) as [_ Hmy].
  rewrite Hdx in Hmx.
  assert (H1 : 2 ^ Z.pos (digits2_pos my) <= 2 ^ prec)
    by (apply Z.pow_le_mono_r; lia).
  assert (H2 : 2 ^ 1 <= 2 ^ (ex - ey)) by (apply Z.pow_le_mono_r; lia).
  assert (H3 : 2 ^ prec = 2 ^ (prec - 1) * 2 ^ 1)
    by (rewrite <- Z.pow_add_r by (unfold prec; lia); f_equal; lia).
  assert (H4 : 0 < 2 ^ (prec - 1)) by (apply Z.pow_pos_nonneg; unfold prec; lia).
  nia.
Qed.

Lemma SFsub_finite_not_negative (sx sy : bool) (mx my : positive) (ex ey : Z) :
  bounded prec emax mx ex = true -> bounded prec emax my ey = true ->
  SFltb (S754_finite sx mx ex) (S754_finite sy my ey) = false ->
  0 <= cond_Zopp sx (Z.pos (fst (shl_align mx ex (Z.min ex ey))))
       - cond_Zopp sy (Z.pos (fst (shl_align my ey (Z.min ex ey)))).
Proof.
  intros Hx Hy. unfold SFltb, SFcompare.
  rewrite !shl_align_lower by lia.
  destruct sx, sy; simpl; try discriminate; [| lia |].
  - (* both negative *)
    destruct (Z.compare_spec ex ey) as [->|Hlt|Hgt]; try discriminate.
    + rewrite Z.min_id, Z.sub_diag, !Z.mul_1_r.
      rewrite Pos.compare_cont_spec. simpl.
      destruct (Pos.compare_spec mx my) as [->|H|H]; simpl; try discriminate; lia.
    + intros _. rewrite Z.min_l by lia. rewrite Z.sub_diag, Z.mul_1_r.
      pose proof (bounded_exponent_order my mx ey ex Hy Hx Hlt). lia.
  - (* both positive *)
    destruct (Z.compare_spec ex ey) as [->|Hlt|Hgt]; try discriminate.
    + rewrite Z.min_id, Z.sub_diag, !Z.mul_1_r.
      rewrite Pos.compare_cont_spec. simpl.
      destruct (Pos.compare_spec mx my) as [->|H|H]; simpl; try discriminate; lia.
    + intros _. rewrite Z.min_r by lia. rewrite Z.sub_diag, Z.mul_1_r.
      pose proof (bounded_exponent_order mx my ex ey Hx Hy Hgt). lia.
Qed.

Lemma sub_not_negative (x y : float) :
  (x <? y)%float = false -> (x - y <? 0)%float = false.
Proof.
  rewrite ltb_zero_negative, ltb_spec, sub_spec. unfold SF64sub.
  pose proof (Prim2SF_valid x) as Hx. pose proof (Prim2SF_valid y) as Hy.
  destruct (Prim2SF x) as [sx|sx| |sx mx ex], (Prim2SF y) as [sy|sy| |sy my ey];
    try reflexivity; try (destruct sx; (discriminate || reflexivity));
    try (destruct sy; (discriminate || reflexivity));
    try (destruct sx, sy; (discriminate || reflexivity)).
  intros Hlt. unfold SFsub. apply binary_normalize_sign.
  now apply SFsub_finite_not_negative.
Qed.

Lemma binary_round_aux_unsigned (m e : Z) (l : location) :
  SFunsigned (binary_round_aux prec emax false m e l) = true.
Proof.
  unfold binary_round_aux.
  destruct (shr_fexp prec emax m e l) as [mrs' e'].
  destruct (shr_fexp prec emax _ e' loc_Exact) as [mrs'' e''].
  destruct (shr_m mrs''); [reflexivity| |reflexivity].
  now destruct (e'' <=? emax - prec).
Qed.

Lemma binary_normalize_unsigned (m e : Z) :
  0 <= m -> SFunsigned (binary_normalize prec emax m e false) = true.
Proof.
  destruct m as [|m|m]; simpl; intros Hm; [reflexivity| |lia].
  unfold binary_round. destruct (shl_align _ _ _) as [mz ez].
  apply binary_round_aux_unsigned.
Qed.

Lemma SF2Prim_unsigned_not_negative (x : spec_float) :
  SFunsigned x = true -> (SF2Prim x <? 0)%float = false.
Proof.
  destruct x as [[]|[]| |[] m e]; simpl; try discriminate; try reflexivity.
  intros _. rewrite ltb_zero_negative, Z_ldexp_spec, of_uint63_spec.
  pose proof (Uint63.to_Z_bounded (Uint63.of_Z (Z.pos m))) as [Hm _].
  pose proof (binary_normalize_unsigned _ 0 Hm) as Hu.
  destruct (binary_normalize prec emax _ 0 false) as [[]|[]| |[] m' e'];
    simpl in *; try discriminate; try reflexivity.
  apply binary_round_sign.
Qed.

Lemma float_of_int_not_negative (n : Z) (x : float) :
  0 <= n -> float_of_int n = Some x -> (x <? 0)%float = false.
Proof.
  unfold float_of_int. intros Hn.
  pose proof (binary_normalize_unsigned n 0 Hn) as Hu.
  destruct (binary_normalize prec emax n 0 false) as [s|s| |s m e] eqn:Hsf;
    intros [= <-].
  - now apply (SF2Prim_unsigned_not_negative (S754_zero s)).
  - now apply (SF2Prim_unsigned_not_negative S754_nan).
  - now apply (SF2Prim_unsigned_not_negative (S754_finite s m e)).
Qed.

Lemma mul_comm (x y : float) : (x * y = y * x)%float.
Proof.
  apply Prim2SF_inj. rewrite !mul_spec. unfold SF64mul.
  destruct (Prim2SF x) as [sx|sx| |sx mx ex], (Prim2SF y) as [sy|sy| |sy my ey];
    simpl; try reflexivity; try (now rewrite xorb_comm).
  now rewrite xorb_comm, Pos.mul_comm, Z.add_comm.
Qed.

(** A balance that is a number and is not below zero is at least zero. *)
Lemma not_negative_at_least_zero (x : float) :
  (x <? 0)%float = false -> is_nan x = false -> (0 <=? x)%float = true.
Proof.
  unfold is_nan. rewrite ltb_spec, leb_spec, FloatAxioms.eqb_spec.
  change (Prim2SF 0) with (S754_zero false).
  destruct (Prim2SF x) as [[]|[]| |[] m e]; simpl; try reflexivity; discriminate.
Qed.

(** ** Cash balances below zero *)

Lemma get_user_split (st : App.Store) (username : string) (u : App.User) :
  App.get_user st (Some username) = Some u ->
  exists us1 us2, App.users st = us1 ++ u :: us2
    /\ App.is_named username u = true
    /\ Forall (fun v => App.is_named username v = false) us1.
Proof.
  unfold App.get_user. destruct (String.eqb username EmptyString); [discriminate|].
  apply next_or_none_split.
Qed.

Lemma signup_balances_not_negative (form : option App.SignupForm) (hashed : string)
  (st : App.Store) :
  balances_not_negative st -> balances_not_negative (snd (App.signup form hashed st)).
Proof.
  intros Hst. unfold App.signup. destruct form as [f|]; [|exact Hst].
  destruct (existsb _ _); [exact Hst|].
  unfold balances_not_negative. simpl. apply Forall_app. split; [exact Hst|].
  constructor; [reflexivity|constructor].
Qed.

(** A buy is refused unless the balance covers the cost, so it never takes
    a balance below zero, whatever the quantity and the price. *)
Lemma buy_balances_not_negative (data : App.DataFolder) (session : App.Session)
  (company : string) (form_quantity : option Z) (st : App.Store) :
  balances_not_negative st ->
  balances_not_negative (snd (App.buy_stock data session company form_quantity st)).
Proof.
  intros Hst. unfold App.buy_stock.
  destruct session as [username|]; [|exact Hst].
  destruct (App.get_user st (Some username)) as [user|] eqn:Huser; [|exact Hst].
  destruct form_quantity as [qty|]; [|exact Hst].
  destruct (App.load_latest_prices data); [|exact Hst].
  destruct (next_or_none _ _) as [stock|]; [|exact Hst].
  destruct (float_of_int qty) as [qf|]; [|exact Hst].
  destruct (_ <? _)%float eqn:Hlt; [exact Hst|].
  destruct (get_user_split _ _ _ Huser) as (us1 & us2 & Hus & Hu & Hus1).
  unfold balances_not_negative in *. simpl. rewrite Hus in *.
  rewrite mutate_first_at by assumption.
  apply Forall_app in Hst as [H1 H2]. inversion H2 as [|? ? _ H3]; subst.
  apply Forall_app. split; [assumption|]. constructor; [|assumption].
  simpl. now apply sub_not_negative.
Qed.

Lemma sell_balances_not_negative (session : App.Session) (company : string)
  (form_quantity : option Z) (form_sell_price : option float) (st : App.Store) :
  sells_not_negative (App.POST_sell session company form_quantity form_sell_price) ->
  balances_not_negative st ->
  balances_not_negative
    (snd (App.sell_stock session company form_quantity form_sell_price st)).
Proof.
  intros Hr Hst. unfold App.sell_stock.
  destruct session as [username|]; [|exact Hst].
  destruct form_quantity as [qty|]; [|exact Hst].
  destruct form_sell_price as [sell_price|]; [|exact Hst].
  destruct (next_or_none _ _) as [holding|]; [|exact Hst].
  destruct (App.quantity holding <? qty); [exact Hst|].
  destruct (App.get_user st (Some username)) as [user|] eqn:Huser; [|exact Hst].
  destruct (float_of_int qty) as [qf|] eqn:Hqf; [|exact Hst].
  destruct Hr as [Hqty Hprice].
  destruct (get_user_split _ _ _ Huser) as (us1 & us2 & Hus & Hu & Hus1).
  unfold balances_not_negative in *. simpl. rewrite Hus in *.
  rewrite mutate_first_at by assumption.
  apply Forall_app in Hst as [H1 H2]. inversion H2 as [|? ? Hb H3]; subst.
  apply Forall_app. split; [assumption|]. constructor; [|assumption].
  simpl. apply add_not_negative; [exact Hb|].
  apply mul_not_negative; [exact Hprice|].
  now apply float_of_int_not_negative with qty.
Qed.

Lemma handle_balances_not_negative (r : App.Request) (st : App.Store) :
  sells_not_negative r -> balances_not_negative st ->
  balances_not_negative (snd (App.handle r st)).
Proof.
  destruct r as [f hashed|data s c q|s c q p|s c|data s]; unfold App.handle;
    intros Hr Hst.
  - now apply signup_balances_not_negative.
  - now apply buy_balances_not_negative.
  - now apply sell_balances_not_negative.
  - unfold App.add_to_watchlist. destruct s; [|assumption]. now destruct (existsb _ _).
  - now rewrite portfolio_page_store.
Qed.

Lemma run_balances_not_negative (rs : list App.Request) (st : App.Store) :
  Forall sells_not_negative rs -> balances_not_negative st ->
  balances_not_negative (App.run rs st).
Proof.
  unfold App.run. intros Hrs. revert st.
  induction Hrs as [|r rs Hr _ IH]; simpl; intros st Hst; [assumption|].
  apply IH. now apply handle_balances_not_negative.
Qed.

(** From the empty lists the application starts with. *)
Lemma balances_not_negative_from_start (rs : list App.Request) :
  Forall sells_not_negative rs -> balances_not_negative (App.run rs App.start).
Proof. intros Hrs. apply run_balances_not_negative; [assumption|constructor]. Qed.

(** C1, as the code has it.  When every sell of the sequence carries a
    quantity that is not negative and a sell price that is not negative, no
    cash balance is below zero after the sequence (signups, buys, sells,
    watchlist additions, valuations), given that none was before.  The buys
    may carry any quantity and the feed any price.  "Not below zero" is
    [balance < 0] being false, the comparison Python makes; a balance that
    is a number (not NaN) is then at least zero. *)
Theorem balances_stay_not_negative (rs : list App.Request) (st : App.Store) :
  Forall sells_not_negative rs -> balances_not_negative st ->
  balances_not_negative (App.run rs st)
  /\ Forall (fun u => is_nan (App.balance u) = false ->
                      (0 <=? App.balance u)%float = true)
       (App.users (App.run rs st)).
Proof.
  intros Hrs Hst.
  pose proof (run_balances_not_negative rs st Hrs Hst) as Hrun.
  split; [exact Hrun|].
  unfold balances_not_negative in Hrun.
  induction Hrun as [|u us Hu _ IH]; constructor; [|exact IH].
  intros Hnan. now apply not_negative_at_least_zero.
Qed.

Lemma balances_stay_not_negative_witness :
  let st' := App.run [App.POST_buy sample_data (Some "alice"%string) "Apple" (Some 10);
                      App.POST_sell (Some "alice"%string) "Apple" (Some 4)
                        (Some 160%float);
                      App.GET_add_to_watchlist (Some "alice"%string) "Tesla";
                      App.GET_portfolio sample_data (Some "alice"%string)]
               fresh_store in
  balances_not_negative st'
  /\ Forall (fun u => is_nan (App.balance u) = false ->
                      (0 <=? App.balance u)%float = true)
       (App.users st').
Proof.
  apply (balances_stay_not_negative
           [App.POST_buy sample_data (Some "alice"%string) "Apple" (Some 10);
            App.POST_sell (Some "alice"%string) "Apple" (Some 4) (Some 160%float);
            App.GET_add_to_watchlist (Some "alice"%string) "Tesla";
            App.GET_portfolio sample_data (Some "alice"%string)]
           fresh_store).
  - repeat constructor. simpl. lia.
  - repeat constructor.
Defined.

(** C1 fails on a sell price below zero and on a sell quantity below zero:
    Alice buys one Apple share and sells it at minus 200000, which leaves her
    balance at -100150.23; or, holding ten shares, she sells minus 1000 of
    them at 150, which leaves her balance at -50000 (and 1010 shares). *)
Lemma negative_sell_overdraws :
  map App.balance
    (App.users
       (App.run [App.POST_buy sample_data (Some "alice"%string) "Apple" (Some 1);
                 App.POST_sell (Some "alice"%string) "Apple" (Some 1)
                   (Some (-200000)%float)]
          fresh_store))
  = [(-100150.23)%float; 100000%float]
  /\ (-100150.23 <? 0)%float = true
  /\ map App.balance
       (App.users
          (App.run [App.POST_sell (Some "alice"%string) "Apple" (Some (-1000))
                      (Some 150%float)]
             holding_store))
     = [(-50000)%float; 100000%float]
  /\ (-50000 <? 0)%float = true.
Proof. repeat split; vm_compute; reflexivity. Qed.

(** ** A buy followed by a sell of the same shares at the same price *)

Lemma get_user_after_set_balance (st st' : App.Store) (username : string)
  (u : App.User) (us1 us2 : list App.User) (b : float) :
  App.get_user st (Some username) = Some u ->
  App.users st = us1 ++ u :: us2 ->
  App.is_named username u = true ->
  Forall (fun v => App.is_named username v = false) us1 ->
  App.users st' = us1 ++ App.set_balance b u :: us2 ->
  App.get_user st' (Some username) = Some (App.set_balance b u).
Proof.
  unfold App.get_user. destruct (String.eqb username EmptyString); [discriminate|].
  intros _ _ Hu Hus1 ->. unfold next_or_none. clear -Hu Hus1.
  induction Hus1 as [|v t Hv _ IH]; simpl.
  - change (App.is_named username (App.set_balance b u))
      with (App.is_named username u). now rewrite Hu.
  - now rewrite Hv.
Qed.

(** C7, as the code has it.  When a buy of [qty] shares at the feed price is
    accepted and a sell of [qty] shares of the same company at that price is
    accepted right after it, the sell credits the very amount the buy
    debited, [cost = float(qty) * price], with no fee: the balance of the
    account goes from [b] to [b - cost] and then to [(b - cost) + cost], both
    operations being binary64 operations.  Every other user record is the
    same before and after. *)
Theorem buy_then_sell_credits_the_debit
  (data : App.DataFolder) (username company : string) (qty : Z)
  (st st1 st2 : App.Store) (stocks : list App.Stock) (stock : App.Stock) :
  App.load_latest_prices data = Some stocks ->
  next_or_none (fun s => String.eqb (App.company s) company) stocks = Some stock ->
  App.buy_stock data (Some username) company (Some qty) st
  = (App.Redirect "portfolio_page" (Some (App.Bought qty company)), st1) ->
  App.sell_stock (Some username) company (Some qty) (Some (App.price stock)) st1
  = (App.Redirect "portfolio_page" (Some App.StockSold), st2) ->
  exists (us1 us2 : list App.User) (u : App.User) (qf : float),
    App.get_user st (Some username) = Some u
    /\ float_of_int qty = Some qf
    /\ App.users st = us1 ++ u :: us2
    /\ let cost := (qf * App.price stock)%float in
       App.users st1 = us1 ++ App.set_balance (App.balance u - cost)%float u :: us2
       /\ App.users st2
          = us1 ++ App.set_balance (App.balance u - cost + cost)%float u :: us2.
Proof.
  intros Hload Hstock. unfold App.buy_stock. rewrite Hload, Hstock.
  destruct (App.get_user st (Some username)) as [u|] eqn:Huser; [|discriminate].
  destruct (float_of_int qty) as [qf|] eqn:Hqf; [|discriminate].
  destruct (_ <? _)%float; [discriminate|]. intros [= <-].
  destruct (get_user_split _ _ _ Huser) as (us1 & us2 & Hus & Hu & Hus1).
  set (cost := (qf * App.price stock)%float).
  set (st1 := App.mkStore _ _ _).
  assert (Hus' : App.users st1
                 = us1 ++ App.set_balance (App.balance u - cost)%float u :: us2).
  { unfold st1. simpl. rewrite Hus. now rewrite mutate_first_at by assumption. }
  pose proof (get_user_after_set_balance st st1 username u us1 us2 _
                Huser Hus Hu Hus1 Hus') as Huser'.
  clearbody st1. unfold App.sell_stock. rewrite Huser', Hqf.
  destruct (next_or_none _ (App.portfolio st1)) as [h|]; [|discriminate].
  destruct (App.quantity h <? qty); [discriminate|]. intros [= <-].
  exists us1, us2, u, qf. repeat split; try assumption.
  simpl. rewrite Hus'. rewrite mutate_first_at by assumption.
  simpl. fold cost. now rewrite (mul_comm (App.price stock) qf).
Qed.

Lemma buy_then_sell_credits_the_debit_witness :
  let st1 := snd (App.buy_stock sample_data (Some "alice"%string) "Apple" (Some 10)
                    fresh_store) in
  let st2 := snd (App.sell_stock (Some "alice"%string) "Apple" (Some 10)
                    (Some 150.23%float) st1) in
  exists (us1 us2 : list App.User) (u : App.User) (qf : float),
    App.get_user fresh_store (Some "alice"%string) = Some u
    /\ float_of_int 10 = Some qf
    /\ App.users fresh_store = us1 ++ u :: us2
    /\ let cost := (qf * 150.23)%float in
       App.users st1 = us1 ++ App.set_balance (App.balance u - cost)%float u :: us2
       /\ App.users st2
          = us1 ++ App.set_balance (App.balance u - cost + cost)%float u :: us2.
Proof.
  apply (buy_then_sell_credits_the_debit sample_data "alice" "Apple" 10 fresh_store
           (snd (App.buy_stock sample_data (Some "alice"%string) "Apple" (Some 10)
                   fresh_store))
           (snd (App.sell_stock (Some "alice"%string) "Apple" (Some 10)
                   (Some 150.23%float)
                   (snd (App.buy_stock sample_data (Some "alice"%string) "Apple"
                           (Some 10) fresh_store))))
           (match App.load_latest_prices sample_data with Some l => l | None => [] end)
           (App.mkStock "Apple" 150.23%float "2024-01-02")).
  - vm_compute. reflexivity.
  - vm_compute. reflexivity.
  - vm_compute. reflexivity.
  - vm_compute. reflexivity.
Defined.

(** At round numbers the two operations are exact and the balance does come
    back: ten shares at 150, from 100000. *)
Example round_trip_exact_at_150 :
  map App.balance
    (App.users
       (App.run [App.POST_buy flat_data (Some "alice"%string) "Apple" (Some 10);
                 App.POST_sell (Some "alice"%string) "Apple" (Some 10) (Some 150%float)]
          fresh_store))
  = [100000%float; 100000%float].
Proof. vm_compute. reflexivity. Qed.

(** C7 fails in binary64 arithmetic.  Alice has bought one Apple share at
    150.23 and her balance is 99849.77.  She buys 40 Tesla shares at 204.86
    and sells the 40 shares at 204.86 at once; both requests are accepted.
    The cost 40 * 204.86 is 8194.400000000001, the balance after the buy is
    91655.37, and the balance after the sell is 99849.76999999999, not
    99849.77. *)
Lemma round_trip_drifts :
  let st := App.run [App.POST_buy sample_data (Some "alice"%string) "Apple" (Some 1)]
              fresh_store in
  let bought := App.buy_stock sample_data (Some "alice"%string) "Tesla" (Some 40) st in
  let sold := App.sell_stock (Some "alice"%string) "Tesla" (Some 40)
                (Some 204.86%float) (snd bought) in
  fst bought = App.Redirect "portfolio_page" (Some (App.Bought 40 "Tesla"))
  /\ fst sold = App.Redirect "portfolio_page" (Some App.StockSold)
  /\ map App.balance (App.users st) = [99849.77%float; 100000%float]
  /\ map App.balance (App.users (snd bought)) = [91655.37%float; 100000%float]
  /\ map App.balance (App.users (snd sold)) = [99849.76999999999%float; 100000%float]
  /\ (99849.76999999999 =? 99849.77)%float = false.
Proof. repeat split; vm_compute; reflexivity. Qed.

(** * Further properties of the two applications *)

(** ** The watchlist of app.py *)

Lemma NoDup_snoc {A : Type} (l : list A) (x : A) :
  List.NoDup l -> ~ In x l -> List.NoDup (l ++ [x]).
Proof.
  induction 1 as [|y t Hy Ht IH]; simpl; intros Hx.
  - constructor; [intros []|constructor].
  - constructor.
    + rewrite in_app_iff. simpl. intros [H|[H|[]]]; [now apply Hy|].
      apply Hx. now left.
    + apply IH. intros H. apply Hx. now right.
Qed.

Lemma is_watch_entry (username company : string) (w : App.Watch) :
  App.is_watch username company w = true <-> w = App.mkWatch username company.
Proof.
  destruct w as [u c]. unfold App.is_watch. simpl.
  rewrite andb_true_iff, !String.eqb_eq. split.
  - now intros [-> ->].
  - now intros [= -> ->].
Qed.

Lemma watched_In (username company : string) (l : list App.Watch) :
  existsb (App.is_watch username company) l = true
  <-> In (App.mkWatch username company) l.
Proof.
  rewrite existsb_exists. split.
  - intros (w & Hin & Hw). apply is_watch_entry in Hw. now subst.
  - intros Hin. exists (App.mkWatch username company). split; [assumption|].
    now apply is_watch_entry.
Qed.

Lemma watchlist_entry_added (username company : string) (st : App.Store) :
  In (App.mkWatch username company)
    (App.watchlists (snd (App.add_to_watchlist (Some username) company st))).
Proof.
  unfold App.add_to_watchlist.
  destruct (existsb (App.is_watch username company) (App.watchlists st)) eqn:Hin;
    simpl.
  - now apply watched_In.
  - apply in_app_iff. right. now left.
Qed.

(** X1.  Adding a company to the watchlist twice is the same as adding it
    once: after the first request the pair (user, company) is in the list,
    and the second request returns the store the first one left. *)
Theorem watchlist_add_twice (username company : string) (st : App.Store) :
  let st1 := snd (App.add_to_watchlist (Some username) company st) in
  In (App.mkWatch username company) (App.watchlists st1)
  /\ App.add_to_watchlist (Some username) company st1
     = (App.Redirect "dashboard" None, st1).
Proof.
  cbv zeta. unfold App.add_to_watchlist.
  destruct (existsb (App.is_watch username company) (App.watchlists st)) eqn:Hin;
    simpl.
  - rewrite Hin. split; [now apply watched_In|reflexivity].
  - assert (Hnew : In (App.mkWatch username company)
                     (App.watchlists st ++ [App.mkWatch username company]))
      by (apply in_app_iff; right; now left).
    split; [exact Hnew|].
    now rewrite (proj2 (watched_In _ _ _) Hnew).
Qed.

Lemma handle_watchlists (r : App.Request) (st : App.Store) :
  App.watchlists (snd (App.handle r st)) = App.watchlists st
  \/ exists username company,
       r = App.GET_add_to_watchlist (Some username) company
       /\ ~ In (App.mkWatch username company) (App.watchlists st)
       /\ App.watchlists (snd (App.handle r st))
          = App.watchlists st ++ [App.mkWatch username company].
Proof.
  destruct r as [f hashed|data s c q|s c q p|s c|data s]; unfold App.handle.
  - left. unfold App.signup. now destruct (existsb _ _).
  - left. unfold App.buy_stock.
    destruct s as [username|]; [|reflexivity].
    destruct (App.get_user st (Some username)); [|reflexivity].
    destruct q as [qty|]; [|reflexivity].
    destruct (App.load_latest_prices data); [|reflexivity].
    destruct (next_or_none _ _); [|reflexivity].
    destruct (float_of_int qty); [|reflexivity].
    now destruct (_ <? _)%float.
  - left. unfold App.sell_stock.
    destruct s as [username|]; [|reflexivity].
    destruct q as [qty|]; [|reflexivity].
    destruct p as [sell_price|]; [|reflexivity].
    destruct (next_or_none _ _) as [holding|]; [|reflexivity].
    destruct (App.quantity holding <? qty); [reflexivity|].
    destruct (App.get_user st (Some username)); [|reflexivity].
    now destruct (float_of_int qty).
  - unfold App.add_to_watchlist. destruct s as [username|]; [|now left].
    destruct (existsb _ _) eqn:Hin; [now left|].
    right. exists username, c. repeat split.
    intros H. apply watched_In in H. congruence.
  - left. now rewrite portfolio_page_store.
Qed.

(** X2.  The watchlist never holds the same (user, company) pair twice:
    no sequence of requests creates a duplicate entry. *)
Theorem watchlists_stay_unique (rs : list App.Request) (st : App.Store) :
  List.NoDup (App.watchlists st) -> List.NoDup (App.watchlists (App.run rs st)).
Proof.
  unfold App.run. revert st.
  induction rs as [|r rs IH]; simpl; intros st Hst; [assumption|].
  apply IH.
  destruct (handle_watchlists r st) as [->|(u & c & _ & Hnew & ->)];
    [assumption|].
  now apply NoDup_snoc.
Qed.

Lemma watchlists_stay_unique_witness :
  List.NoDup
    (App.watchlists
       (App.run [App.GET_add_to_watchlist (Some "alice"%string) "Tesla";
                 App.GET_add_to_watchlist (Some "bob"%string) "Tesla";
                 App.GET_add_to_watchlist (Some "alice"%string) "Tesla"]
          fresh_store)).
Proof.
  apply (watchlists_stay_unique
           [App.GET_add_to_watchlist (Some "alice"%string) "Tesla";
            App.GET_add_to_watchlist (Some "bob"%string) "Tesla";
            App.GET_add_to_watchlist (Some "alice"%string) "Tesla"]
           fresh_store).
  constructor.
Defined.

(** ** The accounts of app.py *)

Lemma map_mutate_first_balance {B : Type} (proj : App.User -> B)
  (p : App.User -> bool) (g : App.User -> float) (l : list App.User) :
  (forall u b, proj (App.set_balance b u) = proj u) ->
  map proj (mutate_first p (fun u => App.set_balance (g u) u) l) = map proj l.
Proof.
  intros Hproj. induction l as [|u t IH]; simpl; [reflexivity|].
  destruct (p u); simpl; [now rewrite Hproj|now rewrite IH].
Qed.

Lemma length_mutate_first {A : Type} (p : A -> bool) (f : A -> A) (l : list A) :
  length (mutate_first p f l) = length l.
Proof.
  induction l as [|x t IH]; simpl; [reflexivity|].
  destruct (p x); simpl; congruence.
Qed.

(** A request leaves [users] as it is, appends the account a signup creates,
    or changes balances only. *)
Lemma handle_users (r : App.Request) (st : App.Store) :
  (exists f hashed,
      existsb (fun u => String.eqb (App.email u) (App.form_email f)) (App.users st)
      = false
      /\ App.users (snd (App.handle r st))
         = App.users st
           ++ [App.mkUser (Z.of_nat (length (App.users st)) + 1) (App.form_name f)
                 (App.form_email f) hashed 100000%float])
  \/ exists p g,
       App.users (snd (App.handle r st))
       = mutate_first p (fun u => App.set_balance (g u) u) (App.users st).
Proof.
  assert (Hsame : forall l : list App.User,
             l = mutate_first (fun _ => false)
                   (fun u => App.set_balance (App.balance u) u) l).
  { induction l as [|u t IH]; simpl; congruence. }
  assert (Hkeep : forall st' : App.Store, App.users st' = App.users st ->
             exists p g, App.users st'
                         = mutate_first p (fun u => App.set_balance (g u) u)
                             (App.users st)).
  { intros st' ->. exists (fun _ => false), App.balance. apply Hsame. }
  destruct r as [f hashed|data s c q|s c q p|s c|data s]; unfold App.handle.
  - unfold App.signup. destruct (existsb _ _) eqn:Hin.
    + right. now apply Hkeep.
    + left. now exists f, hashed.
  - right. unfold App.buy_stock.
    destruct s as [username|]; [|now apply Hkeep].
    destruct (App.get_user st (Some username)); [|now apply Hkeep].
    destruct q as [qty|]; [|now apply Hkeep].
    destruct (App.load_latest_prices data); [|now apply Hkeep].
    destruct (next_or_none _ _) as [stock|]; [|now apply Hkeep].
    destruct (float_of_int qty) as [qf|]; [|now apply Hkeep].
    destruct (_ <? _)%float; [now apply Hkeep|].
    simpl. now eexists _, (fun u => (App.balance u - qf * App.price stock)%float).
  - right. unfold App.sell_stock.
    destruct s as [username|]; [|now apply Hkeep].
    destruct q as [qty|]; [|now apply Hkeep].
    destruct p as [sell_price|]; [|now apply Hkeep].
    destruct (next_or_none _ _) as [holding|]; [|now apply Hkeep].
    destruct (App.quantity holding <? qty); [now apply Hkeep|].
    destruct (App.get_user st (Some username)); [|now apply Hkeep].
    destruct (float_of_int qty) as [qf|]; [|now apply Hkeep].
    simpl. now eexists _, (fun u => (App.balance u + sell_price * qf)%float).
  - right. apply Hkeep. unfold App.add_to_watchlist.
    destruct s; [|reflexivity]. now destruct (existsb _ _).
  - right. apply Hkeep. now rewrite portfolio_page_store.
Qed.

(** X3.  No sequence of requests registers an email address twice: the
    emails of the accounts stay pairwise distinct. *)
Theorem emails_stay_unique (rs : list App.Request) (st : App.Store) :
  List.NoDup (map App.email (App.users st)) ->
  List.NoDup (map App.email (App.users (App.run rs st))).
Proof.
  unfold App.run. revert st.
  induction rs as [|r rs IH]; simpl; intros st Hst; [assumption|].
  apply IH.
  destruct (handle_users r st) as [(f & hashed & Hnew & ->)|(p & g & ->)].
  - rewrite map_app. simpl. apply NoDup_snoc; [assumption|].
    intros Hin. apply in_map_iff in Hin as (u & Hu & Hin).
    assert (Hex : existsb (fun u => String.eqb (App.email u) (App.form_email f))
                    (App.users st) = true).
    { apply existsb_exists. exists u. split; [assumption|].
      rewrite Hu. apply String.eqb_refl. }
    congruence.
  - now rewrite map_mutate_first_balance.
Qed.

Lemma emails_stay_unique_witness :
  List.NoDup
    (map App.email
       (App.users
          (App.run [App.POST_signup (App.mkSignupForm "carol" "carol@example.com" "pw") "h";
                    App.POST_signup (App.mkSignupForm "carl" "carol@example.com" "pw2") "h2"]
             fresh_store))).
Proof.
  apply (emails_stay_unique
           [App.POST_signup (App.mkSignupForm "carol" "carol@example.com" "pw") "h";
            App.POST_signup (App.mkSignupForm "carl" "carol@example.com" "pw2") "h2"]
           fresh_store).
  simpl. constructor.
  - simpl. intros [H|[]]. discriminate.
  - constructor; [intros []|constructor].
Defined.

(** X4.  The user ids are the positions in the list: when they count up
    from 1 before a sequence of requests, they do so after it, each signup
    taking the next number. *)
Theorem user_ids_count_up (rs : list App.Request) (st : App.Store) :
  ids_count_up st -> ids_count_up (App.run rs st).
Proof.
  unfold App.run. revert st.
  induction rs as [|r rs IH]; simpl; intros st Hst; [assumption|].
  apply IH. unfold ids_count_up in *.
  destruct (handle_users r st) as [(f & hashed & _ & ->)|(p & g & ->)].
  - rewrite map_app, length_app, Hst. simpl length.
    rewrite Nat.add_1_r, seq_S, map_app. simpl. f_equal. f_equal. lia.
  - rewrite map_mutate_first_balance by reflexivity.
    now rewrite length_mutate_first.
Qed.

Lemma user_ids_count_up_witness :
  ids_count_up
    (App.run [App.POST_signup (App.mkSignupForm "carol" "carol@example.com" "pw") "h";
              App.POST_buy sample_data (Some "carol"%string) "Apple" (Some 2)]
       fresh_store).
Proof.
  apply (user_ids_count_up
           [App.POST_signup (App.mkSignupForm "carol" "carol@example.com" "pw") "h";
            App.POST_buy sample_data (Some "carol"%string) "Apple" (Some 2)]
           fresh_store).
  reflexivity.
Defined.

(** X5.  Accounts are never deleted, reordered or renamed: after any
    sequence of requests the ids, names, emails and password hashes of the
    accounts that existed come first and unchanged, followed by those of the
    accounts signed up since. *)
Theorem accounts_keep_identity (rs : list App.Request) (st : App.Store) :
  exists more,
    map account_of (App.users (App.run rs st))
    = map account_of (App.users st) ++ more.
Proof.
  unfold App.run. revert st.
  induction rs as [|r rs IH]; simpl; intros st.
  - exists []. now rewrite app_nil_r.
  - destruct (IH (snd (App.handle r st))) as (more & ->).
    destruct (handle_users r st) as [(f & hashed & _ & ->)|(p & g & ->)].
    + rewrite map_app, <- app_assoc. now eexists.
    + rewrite map_mutate_first_balance by reflexivity. now exists more.
Qed.

(** X6.  Signing up twice with the same form creates one account: the
    second request is answered "Email already registered" and returns the
    store the first one left, whether the first created the account or
    found the email taken. *)
Theorem signup_twice_one_account (f : App.SignupForm) (hashed hashed' : string)
  (st : App.Store) :
  let st1 := snd (App.signup (Some f) hashed st) in
  App.signup (Some f) hashed' st1
  = (App.Redirect "login" (Some App.EmailAlreadyRegistered), st1).
Proof.
  cbv zeta. unfold App.signup.
  destruct (existsb _ (App.users st)) eqn:Hin; simpl.
  - now rewrite Hin.
  - rewrite existsb_app. simpl. now rewrite String.eqb_refl, orb_true_r.
Qed.

(** ** Signup, login and the session *)

Lemma next_or_none_snoc {A : Type} (p : A -> bool) (l : list A) (x : A) :
  existsb p l = false -> p x = true -> next_or_none p (l ++ [x]) = Some x.
Proof.
  unfold next_or_none. induction l as [|y t IH]; simpl; intros Hl Hx.
  - now rewrite Hx.
  - apply orb_false_iff in Hl as [Hy Ht]. rewrite Hy. now apply IH.
Qed.

Lemma signup_fresh_email (f : App.SignupForm) (hashed : string) (st : App.Store) :
  existsb (fun u => String.eqb (App.email u) (App.form_email f)) (App.users st) = false ->
  snd (App.signup (Some f) hashed st)
  = App.mkStore
      (App.users st
       ++ [App.mkUser (Z.of_nat (length (App.users st)) + 1) (App.form_name f)
             (App.form_email f) hashed 100000%float])
      (App.watchlists st) (App.portfolio st).
Proof. intros Hfresh. unfold App.signup. now rewrite Hfresh. Qed.

Lemma login_after_signup (check_password_hash : string -> string -> bool)
  (f : App.SignupForm) (hashed : string) (session : App.Session) (st : App.Store) :
  existsb (fun u => String.eqb (App.email u) (App.form_email f)) (App.users st) = false ->
  check_password_hash hashed (App.form_password f) = true ->
  AppPages.login check_password_hash
    (Some (AppPages.mkLoginForm (App.form_email f) (App.form_password f)))
    session (snd (App.signup (Some f) hashed st))
  = (AppPages.Redirected "dashboard" None, Some (App.form_name f)).
Proof.
  intros Hfresh Hcheck. rewrite signup_fresh_email by assumption.
  unfold AppPages.login. simpl.
  rewrite next_or_none_snoc; [simpl; now rewrite Hcheck|assumption|].
  simpl. apply String.eqb_refl.
Qed.

(** X7.  Signup, login and session fit together for a new name: after a
    signup with an email and a name no account has (the name not empty), a
    login with that email and a password the hash check accepts is sent to
    the dashboard with the name in the session, and [get_user] then returns
    the new account, whose balance is 100000. *)
Theorem signup_login_resolves_new_account
  (check_password_hash : string -> string -> bool) (f : App.SignupForm)
  (hashed : string) (session : App.Session) (st : App.Store) :
  existsb (fun u => String.eqb (App.email u) (App.form_email f)) (App.users st) = false ->
  existsb (App.is_named (App.form_name f)) (App.users st) = false ->
  App.form_name f <> EmptyString ->
  check_password_hash hashed (App.form_password f) = true ->
  let st1 := snd (App.signup (Some f) hashed st) in
  let logged := AppPages.login check_password_hash
                  (Some (AppPages.mkLoginForm (App.form_email f) (App.form_password f)))
                  session st1 in
  logged = (AppPages.Redirected "dashboard" None, Some (App.form_name f))
  /\ App.get_user st1 (snd logged)
     = Some (App.mkUser (Z.of_nat (length (App.users st)) + 1) (App.form_name f)
               (App.form_email f) hashed 100000%float).
Proof.
  intros Hfresh Hname Hnonempty Hcheck. cbv zeta.
  rewrite login_after_signup by assumption. split; [reflexivity|].
  rewrite signup_fresh_email by assumption. unfold App.get_user. simpl.
  destruct (String.eqb_spec (App.form_name f) EmptyString) as [He|_];
    [contradiction|].
  apply next_or_none_snoc; [assumption|].
  unfold App.is_named. simpl. apply String.eqb_refl.
Qed.

Lemma signup_login_resolves_new_account_witness :
  let f := App.mkSignupForm "carol" "carol@example.com" "pw" in
  let st1 := snd (App.signup (Some f) "h" fresh_store) in
  let logged := AppPages.login accept_all
                  (Some (AppPages.mkLoginForm "carol@example.com" "pw")) None st1 in
  logged = (AppPages.Redirected "dashboard" None, Some "carol"%string)
  /\ App.get_user st1 (snd logged)
     = Some (App.mkUser 3 "carol" "carol@example.com" "h" 100000%float).
Proof.
  apply (signup_login_resolves_new_account accept_all
           (App.mkSignupForm "carol" "carol@example.com" "pw") "h" None fresh_store).
  - reflexivity.
  - reflexivity.
  - discriminate.
  - reflexivity.
Defined.

(** X8.  The session keeps the name, not the account.  When the name of a
    new signup is already the name of an account [old], the newcomer logs in
    with the own email and password, and [get_user] then returns [old]: the
    pages and trades of the newcomer read and change the balance of [old]. *)
Theorem same_name_resolves_older_account
  (check_password_hash : string -> string -> bool) (f : App.SignupForm)
  (hashed : string) (session : App.Session) (st : App.Store) (old : App.User) :
  existsb (fun u => String.eqb (App.email u) (App.form_email f)) (App.users st) = false ->
  App.get_user st (Some (App.form_name f)) = Some old ->
  check_password_hash hashed (App.form_password f) = true ->
  let st1 := snd (App.signup (Some f) hashed st) in
  let logged := AppPages.login check_password_hash
                  (Some (AppPages.mkLoginForm (App.form_email f) (App.form_password f)))
                  session st1 in
  logged = (AppPages.Redirected "dashboard" None, Some (App.form_name f))
  /\ App.get_user st1 (snd logged) = Some old
  /\ In old (App.users st)
  /\ App.email old <> App.form_email f.
Proof.
  intros Hfresh Hold Hcheck. cbv zeta.
  rewrite login_after_signup by assumption. split; [reflexivity|].
  rewrite signup_fresh_email by assumption.
  unfold App.get_user in *. simpl.
  destruct (String.eqb (App.form_name f) EmptyString); [discriminate|].
  split; [now apply next_or_none_app_found|].
  destruct (next_or_none_split _ _ _ Hold) as (l1 & l2 & Hl & _ & _).
  assert (Hin : In old (App.users st))
    by (rewrite Hl; apply in_app_iff; right; now left).
  split; [exact Hin|].
  intros Hmail.
  assert (Hex : existsb (fun u => String.eqb (App.email u) (App.form_email f))
                  (App.users st) = true).
  { apply existsb_exists. exists old. split; [assumption|].
    rewrite Hmail. apply String.eqb_refl. }
  congruence.
Qed.

Lemma same_name_resolves_older_account_witness :
  let f := App.mkSignupForm "alice" "alice2@example.com" "pw" in
  let st1 := snd (App.signup (Some f) "h" fresh_store) in
  let logged := AppPages.login accept_all
                  (Some (AppPages.mkLoginForm "alice2@example.com" "pw")) None st1 in
  logged = (AppPages.Redirected "dashboard" None, Some "alice"%string)
  /\ App.get_user st1 (snd logged) = Some alice
  /\ In alice (App.users fresh_store)
  /\ App.email alice <> "alice2@example.com"%string.
Proof.
  apply (same_name_resolves_older_account accept_all
           (App.mkSignupForm "alice" "alice2@example.com" "pw") "h" None fresh_store
           alice).
  - reflexivity.
  - reflexivity.
  - reflexivity.
Defined.

(** X9.  An account signed up with an empty name can log in but not act:
    the login is sent to the dashboard with the empty name in the session,
    and then the dashboard answers "Session expired. Login again." and
    clears the session, and every buy answers "Session expired", the store
    unchanged. *)
Theorem empty_name_session_expires
  (check_password_hash : string -> string -> bool) (f : App.SignupForm)
  (hashed : string) (session : App.Session) (st : App.Store)
  (data : App.DataFolder) (company : string) (form_quantity : option Z) :
  existsb (fun u => String.eqb (App.email u) (App.form_email f)) (App.users st) = false ->
  App.form_name f = EmptyString ->
  check_password_hash hashed (App.form_password f) = true ->
  let st1 := snd (App.signup (Some f) hashed st) in
  let logged := AppPages.login check_password_hash
                  (Some (AppPages.mkLoginForm (App.form_email f) (App.form_password f)))
                  session st1 in
  logged = (AppPages.Redirected "dashboard" None, Some EmptyString)
  /\ AppPages.dashboard data (snd logged) st1
     = (AppPages.Redirected "login" (Some "Session expired. Login again."), None)
  /\ App.buy_stock data (snd logged) company form_quantity st1
     = (App.Redirect "login" (Some App.SessionExpired), st1).
Proof.
  intros Hfresh Hname Hcheck. cbv zeta.
  rewrite login_after_signup by assumption. rewrite Hname. simpl.
  repeat split.
Qed.

Lemma empty_name_session_expires_witness :
  let f := App.mkSignupForm EmptyString "anon@example.com" "pw" in
  let st1 := snd (App.signup (Some f) "h" fresh_store) in
  let logged := AppPages.login accept_all
                  (Some (AppPages.mkLoginForm "anon@example.com" "pw")) None st1 in
  logged = (AppPages.Redirected "dashboard" None, Some EmptyString)
  /\ AppPages.dashboard sample_data (snd logged) st1
     = (AppPages.Redirected "login" (Some "Session expired. Login again."), None)
  /\ App.buy_stock sample_data (snd logged) "Apple" (Some 1) st1
     = (App.Redirect "login" (Some App.SessionExpired), st1).
Proof.
  apply (empty_name_session_expires accept_all
           (App.mkSignupForm EmptyString "anon@example.com" "pw") "h" None fresh_store
           sample_data "Apple" (Some 1)).
  - reflexivity.
  - reflexivity.
  - reflexivity.
Defined.

(** ** The price feed of app.py *)

Lemma load_rows_rows (data : App.DataFolder) (cs : list (string * string)) :
  match App.load_rows data cs with
  | Some stocks =>
      Forall2 (fun s cf => App.company s = fst cf
                           /\ data (snd cf) = Some (App.price s, App.date s))
        stocks cs
  | None => exists c file, In (c, file) cs /\ data file = None
  end.
Proof.
  induction cs as [|[c file] rest IH]; simpl; [constructor|].
  destruct (data file) as [[close day]|] eqn:Hfile.
  - destruct (App.load_rows data rest) as [prices|].
    + constructor; [now split|assumption].
    + destruct IH as (c' & file' & Hin & Hnone). exists c', file'. auto.
  - exists c, file. auto.
Qed.

Lemma load_latest_prices_rows_readable (data : App.DataFolder) :
  match App.load_latest_prices data with
  | Some _ => forall c file, In (c, file) COMPANIES -> data file <> None
  | None => True
  end.
Proof.
  unfold App.load_latest_prices.
  pose proof (load_rows_rows data COMPANIES) as H.
  destruct (App.load_rows data COMPANIES) as [stocks|]; [|exact I].
  induction H as [|s [c' file'] stocks cs [_ Hrow] _ IH]; intros c file Hin.
  - destruct Hin.
  - destruct Hin as [[= -> ->]|Hin]; [simpl in Hrow; congruence|].
    now apply IH with c.
Qed.

(** X10.  [load_latest_prices] answers with one quote per configured
    company, in the order of [COMPANIES], each carrying the last row of the
    company's own file; it raises exactly when the file of some configured
    company cannot be read, even if that company is not the one asked for. *)
Theorem load_latest_prices_all_or_nothing (data : App.DataFolder) :
  match App.load_latest_prices data with
  | Some stocks =>
      Forall2 (fun s cf => App.company s = fst cf
                           /\ data (snd cf) = Some (App.price s, App.date s))
        stocks COMPANIES
      /\ forall c file, In (c, file) COMPANIES -> data file <> None
  | None => exists c file, In (c, file) COMPANIES /\ data file = None
  end.
Proof.
  unfold App.load_latest_prices.
  pose proof (load_rows_rows data COMPANIES) as H.
  destruct (App.load_rows data COMPANIES) as [stocks|]; [|exact H].
  split; [exact H|]. clear -H.
  induction H as [|s [c' file'] stocks cs [_ Hrow] _ IH]; intros c file Hin.
  - destruct Hin.
  - destruct Hin as [[= -> ->]|Hin]; [simpl in Hrow; congruence|].
    now apply IH with c.
Qed.

Lemma load_rows_lookup (data : App.DataFolder) (company : string)
  (cs : list (string * string)) (stocks : list App.Stock) (file : string)
  (close : float) (day : string) :
  App.load_rows data cs = Some stocks ->
  option_map snd (find (fun kv => String.eqb (fst kv) company) cs) = Some file ->
  data file = Some (close, day) ->
  next_or_none (fun s => String.eqb (App.company s) company) stocks
  = Some (App.mkStock company close day).
Proof.
  unfold next_or_none. revert stocks.
  induction cs as [|[c f] rest IH]; simpl; intros stocks; [discriminate|].
  destruct (data f) as [[close' day']|] eqn:Hf; [|discriminate].
  destruct (App.load_rows data rest) as [prices|]; [|discriminate].
  intros [= <-]. simpl.
  destruct (String.eqb_spec c company) as [->|Hne]; simpl.
  - intros [= ->] Hrow. rewrite Hf in Hrow. now injection Hrow as -> ->.
  - intros Hfind Hrow. now apply IH.
Qed.

(** X11.  For a configured company whose files can be read, a buy is
    decided by the last close of the company's own file and by nothing else
    of the feed: it is refused with "Insufficient balance" when the balance
    is below [float(qty) * close], and otherwise debits exactly that amount
    from the account and appends the record of [qty] shares at [close]. *)
Theorem buy_at_own_file_price (data : App.DataFolder) (username company file : string)
  (qty : Z) (st : App.Store) (user : App.User) (stocks : list App.Stock)
  (close qf : float) (day : string) :
  COMPANIES_get company = Some file ->
  data file = Some (close, day) ->
  App.load_latest_prices data = Some stocks ->
  App.get_user st (Some username) = Some user ->
  float_of_int qty = Some qf ->
  App.buy_stock data (Some username) company (Some qty) st
  = if (App.balance user <? qf * close)%float
    then (App.Redirect "dashboard" (Some App.InsufficientBalance), st)
    else (App.Redirect "portfolio_page" (Some (App.Bought qty company)),
          App.mkStore
            (mutate_first (App.is_named username)
               (fun u => App.set_balance (App.balance u - qf * close)%float u)
               (App.users st))
            (App.watchlists st)
            (App.portfolio st ++ [App.mkHolding username company qty close])).
Proof.
  intros Hfile Hrow Hload Huser Hqf. unfold App.buy_stock.
  rewrite Huser, Hload.
  rewrite (load_rows_lookup data company COMPANIES stocks file close day Hload Hfile Hrow).
  now rewrite Hqf.
Qed.

Lemma buy_at_own_file_price_witness :
  App.buy_stock sample_data (Some "alice"%string) "Tesla" (Some 40) fresh_store
  = if (App.balance alice <? 40 * 204.86)%float
    then (App.Redirect "dashboard" (Some App.InsufficientBalance), fresh_store)
    else (App.Redirect "portfolio_page" (Some (App.Bought 40 "Tesla")),
          App.mkStore
            (mutate_first (App.is_named "alice")
               (fun u => App.set_balance (App.balance u - 40 * 204.86)%float u)
               (App.users fresh_store))
            (App.watchlists fresh_store)
            (App.portfolio fresh_store
             ++ [App.mkHolding "alice" "Tesla" 40 204.86%float])).
Proof.
  apply (buy_at_own_file_price sample_data "alice" "Tesla" "Tesla.csv" 40 fresh_store
           alice (match App.load_latest_prices sample_data with
                  | Some l => l | None => [] end)
           204.86%float 40%float "2024-01-02").
  - reflexivity.
  - reflexivity.
  - vm_compute. reflexivity.
  - reflexivity.
  - vm_compute. reflexivity.
Defined.

(** X12.  One unreadable data file stops every buy: when the file of any
    configured company cannot be read, a buy by a logged-in user with a
    quantity that parses raises from [load_latest_prices], whatever company
    is bought, and the store is unchanged. *)
Theorem one_bad_file_stops_every_buy (data : App.DataFolder)
  (username company c file : string) (qty : Z) (st : App.Store) (user : App.User) :
  In (c, file) COMPANIES -> data file = None ->
  App.get_user st (Some username) = Some user ->
  App.buy_stock data (Some username) company (Some qty) st
  = (App.Raise PandasError, st).
Proof.
  intros Hin Hnone Huser. unfold App.buy_stock. rewrite Huser.
  pose proof (load_latest_prices_rows_readable data) as H.
  destruct (App.load_latest_prices data) as [stocks|]; [|reflexivity].
  now destruct (H c file Hin).
Qed.

Lemma one_bad_file_stops_every_buy_witness :
  App.buy_stock data_without_zoom (Some "alice"%string) "Apple" (Some 1) fresh_store
  = (App.Raise PandasError, fresh_store).
Proof.
  apply (one_bad_file_stops_every_buy data_without_zoom "alice" "Apple" "Zoom" "Zoom.csv"
           1 fresh_store alice).
  - simpl. tauto.
  - reflexivity.
  - reflexivity.
Defined.

(** ** Counting shares *)

Lemma shares_held_app (username company : string) (us : list App.User)
  (ws : list App.Watch) (l1 l2 : list App.Holding) :
  shares_held (App.mkStore us ws (l1 ++ l2)) username company
  = shares_held (App.mkStore us ws l1) username company
    + shares_held (App.mkStore us ws l2) username company.
Proof.
  unfold shares_held. simpl. rewrite List.filter_app, map_app.
  induction (map App.quantity (List.filter _ l1)) as [|q t IH]; simpl; lia.
Qed.

Lemma shares_held_portfolio (st : App.Store) (username company : string) :
  shares_held st username company
  = shares_held (App.mkStore [] [] (App.portfolio st)) username company.
Proof. reflexivity. Qed.

Lemma buy_accepted_portfolio (data : App.DataFolder) (username company : string)
  (qty : Z) (st st' : App.Store) :
  App.buy_stock data (Some username) company (Some qty) st
  = (App.Redirect "portfolio_page" (Some (App.Bought qty company)), st') ->
  exists close,
    App.portfolio st' = App.portfolio st ++ [App.mkHolding username company qty close].
Proof.
  unfold App.buy_stock.
  destruct (App.get_user st (Some username)); [|discriminate].
  destruct (App.load_latest_prices data); [|discriminate].
  destruct (next_or_none _ _) as [stock|]; [|discriminate].
  destruct (float_of_int qty); [|discriminate].
  destruct (_ <? _)%float; [discriminate|].
  intros [= <-]. now exists (App.price stock).
Qed.

Lemma sell_accepted_portfolio (username company : string) (qty : Z)
  (sell_price : float) (st st' : App.Store) :
  App.sell_stock (Some username) company (Some qty) (Some sell_price) st
  = (App.Redirect "portfolio_page" (Some App.StockSold), st') ->
  exists hs1 h hs2,
    App.portfolio st = hs1 ++ h :: hs2
    /\ App.is_holding username company h = true
    /\ qty <= App.quantity h
    /\ App.portfolio st'
       = hs1 ++ (if App.quantity h - qty =? 0 then []
                 else [App.set_quantity (App.quantity h - qty) h]) ++ hs2.
Proof.
  unfold App.sell_stock.
  destruct (next_or_none _ (App.portfolio st)) as [h|] eqn:Hfind; [|discriminate].
  destruct (App.quantity h <? qty) eqn:Hlt; [discriminate|].
  destruct (App.get_user st (Some username)); [|discriminate].
  destruct (float_of_int qty); [|discriminate].
  intros [= <-]. apply Z.ltb_ge in Hlt.
  destruct (next_or_none_split _ _ _ Hfind) as (hs1 & hs2 & Hhs & Hh & Hhs1).
  exists hs1, h, hs2. repeat split; try assumption.
  simpl. rewrite Hhs, mutate_first_at by assumption.
  destruct (_ =? 0); [|reflexivity]. now rewrite remove_first_at.
Qed.

(** X13.  An accepted buy of [qty] shares raises the number of shares the
    buyer holds of the company, counted over all the records, by exactly
    [qty], and leaves the count of every other (user, company) pair as it
    was. *)
Theorem buy_adds_the_shares (data : App.DataFolder) (username company : string)
  (qty : Z) (st st' : App.Store) (username' company' : string) :
  App.buy_stock data (Some username) company (Some qty) st
  = (App.Redirect "portfolio_page" (Some (App.Bought qty company)), st') ->
  shares_held st' username' company'
  = shares_held st username' company'
    + (if String.eqb username username' && String.eqb company company'
       then qty else 0).
Proof.
  intros Hbuy. destruct (buy_accepted_portfolio _ _ _ _ _ _ Hbuy) as (close & Hp).
  rewrite (shares_held_portfolio st'), Hp, shares_held_app.
  rewrite <- shares_held_portfolio. f_equal.
  unfold shares_held, App.is_holding. simpl.
  destruct (String.eqb username username' && String.eqb company company'); simpl; lia.
Qed.

Lemma buy_adds_the_shares_witness :
  shares_held
    (snd (App.buy_stock sample_data (Some "alice"%string) "Apple" (Some 5)
            two_records_store)) "alice" "Apple"
  = shares_held two_records_store "alice" "Apple"
    + (if String.eqb "alice" "alice" && String.eqb "Apple" "Apple" then 5 else 0).
Proof.
  apply (buy_adds_the_shares sample_data "alice" "Apple" 5 two_records_store
           (snd (App.buy_stock sample_data (Some "alice"%string) "Apple" (Some 5)
                   two_records_store)) "alice" "Apple").
  vm_compute. reflexivity.
Defined.

(** X14.  An accepted sell of [qty] shares lowers the number of shares the
    seller holds of the company, counted over all the records, by exactly
    [qty], and leaves the count of every other (user, company) pair as it
    was; the shares come out of the oldest record of the pair, which held at
    least [qty]. *)
Theorem sell_removes_the_shares (username company : string) (qty : Z)
  (sell_price : float) (st st' : App.Store) (username' company' : string) :
  App.sell_stock (Some username) company (Some qty) (Some sell_price) st
  = (App.Redirect "portfolio_page" (Some App.StockSold), st') ->
  shares_held st' username' company'
  = shares_held st username' company'
    - (if String.eqb username username' && String.eqb company company'
       then qty else 0).
Proof.
  intros Hsell.
  destruct (sell_accepted_portfolio _ _ _ _ _ _ Hsell)
    as (hs1 & h & hs2 & Hp & Hh & Hle & Hp').
  rewrite (shares_held_portfolio st'), (shares_held_portfolio st), Hp, Hp'.
  change (h :: hs2) with ([h] ++ hs2). rewrite !shares_held_app.
  assert (Hb : forall q, App.is_holding username' company' (App.set_quantity q h)
                         = String.eqb username username' && String.eqb company company').
  { intros q. unfold App.is_holding in *. simpl.
    apply andb_prop in Hh as [Hu Hc].
    apply String.eqb_eq in Hu, Hc. now rewrite Hu, Hc. }
  assert (Hb' : App.is_holding username' company' h
                = String.eqb username username' && String.eqb company company').
  { rewrite <- (Hb (App.quantity h)). now destruct h. }
  destruct (App.quantity h - qty =? 0) eqn:Hz.
  - apply Z.eqb_eq in Hz. unfold shares_held at 2 5. simpl. rewrite Hb'.
    destruct (String.eqb username username' && String.eqb company company');
      simpl; lia.
  - unfold shares_held at 2 5. simpl. rewrite Hb, Hb'.
    destruct (String.eqb username username' && String.eqb company company');
      simpl; lia.
Qed.

Lemma sell_removes_the_shares_witness :
  shares_held
    (snd (App.sell_stock (Some "alice"%string) "Apple" (Some 3) (Some 160%float)
            two_records_store)) "alice" "Apple"
  = shares_held two_records_store "alice" "Apple"
    - (if String.eqb "alice" "alice" && String.eqb "Apple" "Apple" then 3 else 0).
Proof.
  apply (sell_removes_the_shares "alice" "Apple" 3 160%float two_records_store
           (snd (App.sell_stock (Some "alice"%string) "Apple" (Some 3) (Some 160%float)
                   two_records_store)) "alice" "Apple").
  vm_compute. reflexivity.
Defined.

(** ** A sell price that is not a number *)

Lemma mul_nan_l (x : float) : (nan * x)%float = nan.
Proof. apply Prim2SF_inj. rewrite mul_spec. reflexivity. Qed.

Lemma add_nan_r (x : float) : (x + nan)%float = nan.
Proof.
  apply Prim2SF_inj. rewrite add_spec. change (Prim2SF nan) with S754_nan.
  now destruct (Prim2SF x).
Qed.

Lemma ltb_nan_l (x : float) : (nan <? x)%float = false.
Proof. rewrite ltb_spec. reflexivity. Qed.

(** X15.  [float("nan")] parses, and a sell accepted at the price NaN turns
    the balance of the seller into NaN.  From then on the balance check of
    buy never refuses ([NaN < cost] is false): every buy of a known company
    by that user, of any quantity that converts to float, is accepted. *)
Theorem nan_sell_price_disables_balance_check (username company : string) (qty : Z)
  (st st' : App.Store) :
  App.sell_stock (Some username) company (Some qty) (Some nan) st
  = (App.Redirect "portfolio_page" (Some App.StockSold), st') ->
  (exists u', App.get_user st' (Some username) = Some u' /\ App.balance u' = nan)
  /\ forall data company2 qty2 stocks stock qf,
       App.load_latest_prices data = Some stocks ->
       next_or_none (fun s => String.eqb (App.company s) company2) stocks = Some stock ->
       float_of_int qty2 = Some qf ->
       fst (App.buy_stock data (Some username) company2 (Some qty2) st')
       = App.Redirect "portfolio_page" (Some (App.Bought qty2 company2)).
Proof.
  unfold App.sell_stock.
  destruct (next_or_none _ (App.portfolio st)) as [h|]; [|discriminate].
  destruct (App.quantity h <? qty); [discriminate|].
  destruct (App.get_user st (Some username)) as [u|] eqn:Huser; [|discriminate].
  destruct (float_of_int qty) as [qf0|]; [|discriminate].
  intros [= <-].
  destruct (get_user_split _ _ _ Huser) as (us1 & us2 & Hus & Hu & Hus1).
  set (st' := App.mkStore _ _ _).
  assert (Hus' : App.users st' = us1 ++ App.set_balance nan u :: us2).
  { unfold st'. simpl. rewrite Hus, mutate_first_at by assumption.
    now rewrite mul_nan_l, add_nan_r. }
  pose proof (get_user_after_set_balance st st' username u us1 us2 nan
                Huser Hus Hu Hus1 Hus') as Huser'.
  clearbody st'. split.
  - now exists (App.set_balance nan u).
  - intros data company2 qty2 stocks stock qf Hload Hstock Hqf.
    unfold App.buy_stock. rewrite Huser', Hload, Hstock, Hqf. simpl.
    now rewrite ltb_nan_l.
Qed.

Lemma nan_sell_price_disables_balance_check_witness :
  let st' := snd (App.sell_stock (Some "alice"%string) "Apple" (Some 1) (Some nan)
                    holding_store) in
  (exists u', App.get_user st' (Some "alice"%string) = Some u' /\ App.balance u' = nan)
  /\ forall data company2 qty2 stocks stock qf,
       App.load_latest_prices data = Some stocks ->
       next_or_none (fun s => String.eqb (App.company s) company2) stocks = Some stock ->
       float_of_int qty2 = Some qf ->
       fst (App.buy_stock data (Some "alice"%string) company2 (Some qty2) st')
       = App.Redirect "portfolio_page" (Some (App.Bought qty2 company2)).
Proof.
  apply (nan_sell_price_disables_balance_check "alice" "Apple" 1 holding_store).
  vm_compute. reflexivity.
Defined.

(** ** The watchlist pages *)

Lemma user_companies_In (st : App.Store) (username company : string) :
  In company (AppPages.user_companies st username)
  <-> In (App.mkWatch username company) (App.watchlists st).
Proof.
  unfold AppPages.user_companies. rewrite in_map_iff. split.
  - intros ([u c] & Hc & Hin). apply filter_In in Hin as [Hin Hu].
    simpl in *. apply String.eqb_eq in Hu. now subst.
  - intros Hin. exists (App.mkWatch username company). split; [reflexivity|].
    apply filter_In. split; [assumption|]. simpl. apply String.eqb_refl.
Qed.

Lemma add_to_watchlist_users (username company : string) (st : App.Store) :
  App.users (snd (App.add_to_watchlist (Some username) company st)) = App.users st.
Proof. unfold App.add_to_watchlist. now destruct (existsb _ _). Qed.

(** X16.  What a user adds to the watchlist shows on the watchlist page:
    after a registered user adds a configured company, the page lists the
    quote of that company, read from the company's own file, together with
    the balance of the user. *)
Theorem watched_company_is_listed (data : App.DataFolder)
  (username company file : string) (st : App.Store) (user : App.User)
  (stocks : list App.Stock) (close : float) (day : string) :
  COMPANIES_get company = Some file ->
  data file = Some (close, day) ->
  App.load_latest_prices data = Some stocks ->
  App.get_user st (Some username) = Some user ->
  let st1 := snd (App.add_to_watchlist (Some username) company st) in
  exists view,
    AppPages.watchlist data (Some username) st1
    = (AppPages.Shown "watchlist.html" None view, Some username)
    /\ In (App.mkStock company close day) (AppPages.wl_watchlist view)
    /\ AppPages.wl_user view = username
    /\ AppPages.wl_balance view = App.balance user.
Proof.
  intros Hfile Hrow Hload Huser. cbv zeta.
  unfold AppPages.watchlist. rewrite Hload.
  assert (Huser' : App.get_user
                     (snd (App.add_to_watchlist (Some username) company st))
                     (Some username) = Some user).
  { unfold App.get_user in *. now rewrite add_to_watchlist_users. }
  rewrite Huser'. eexists. split; [reflexivity|]. simpl. repeat split.
  apply filter_In. split.
  - pose proof (load_rows_lookup data company COMPANIES stocks file close day
                  Hload Hfile Hrow) as Hfind.
    now apply find_some in Hfind.
  - simpl. apply existsb_exists. exists company. split; [|apply String.eqb_refl].
    apply user_companies_In. apply (watchlist_entry_added username company st).
Qed.

Lemma watched_company_is_listed_witness :
  let st1 := snd (App.add_to_watchlist (Some "alice"%string) "Tesla" fresh_store) in
  exists view,
    AppPages.watchlist sample_data (Some "alice"%string) st1
    = (AppPages.Shown "watchlist.html" None view, Some "alice"%string)
    /\ In (App.mkStock "Tesla" 204.86%float "2024-01-02") (AppPages.wl_watchlist view)
    /\ AppPages.wl_user view = "alice"%string
    /\ AppPages.wl_balance view = App.balance alice.
Proof.
  apply (watched_company_is_listed sample_data "alice" "Tesla" "Tesla.csv" fresh_store
           alice (match App.load_latest_prices sample_data with
                  | Some l => l | None => [] end)
           204.86%float "2024-01-02").
  - reflexivity.
  - reflexivity.
  - vm_compute. reflexivity.
  - reflexivity.
Defined.

(** X17.  [add_to_watchlist] takes any company name from the URL.  A name
    outside [COMPANIES] is stored and is in the list the dashboard shows for
    the user, but the watchlist page, which shows quotes, has no row for it. *)
Theorem unknown_company_watched_not_listed (data : App.DataFolder)
  (username company : string) (st : App.Store) (user : App.User)
  (stocks : list App.Stock) :
  COMPANIES_get company = None ->
  App.load_latest_prices data = Some stocks ->
  App.get_user st (Some username) = Some user ->
  let st1 := snd (App.add_to_watchlist (Some username) company st) in
  In (App.mkWatch username company) (App.watchlists st1)
  /\ (exists view,
        AppPages.dashboard data (Some username) st1
        = (AppPages.Shown "dashboard.html" None view, Some username)
        /\ In company (AppPages.dash_user_watchlist view))
  /\ (exists view,
        AppPages.watchlist data (Some username) st1
        = (AppPages.Shown "watchlist.html" None view, Some username)
        /\ forall s, In s (AppPages.wl_watchlist view) -> App.company s <> company).
Proof.
  intros Hunknown Hload Huser. cbv zeta.
  assert (Huser' : App.get_user
                     (snd (App.add_to_watchlist (Some username) company st))
                     (Some username) = Some user).
  { unfold App.get_user in *. now rewrite add_to_watchlist_users. }
  pose proof (watchlist_entry_added username company st) as Hin.
  split; [exact Hin|]. split.
  - unfold AppPages.dashboard. rewrite Huser', Hload.
    eexists. split; [reflexivity|]. simpl. now apply user_companies_In.
  - unfold AppPages.watchlist. rewrite Huser', Hload.
    eexists. split; [reflexivity|]. simpl.
    intros s Hs Hc. apply filter_In in Hs as [Hs _].
    assert (Hnone : next_or_none (fun s => String.eqb (App.company s) company) stocks
                    = None).
    { apply (load_rows_unknown data company COMPANIES stocks Hload).
      unfold COMPANIES_get in Hunknown.
      destruct (find _ COMPANIES); [discriminate|reflexivity]. }
    apply next_or_none_absent in Hnone.
    rewrite List.Forall_forall in Hnone. specialize (Hnone s Hs). simpl in Hnone.
    rewrite Hc, String.eqb_refl in Hnone. discriminate.
Qed.

Lemma unknown_company_watched_not_listed_witness :
  let st1 := snd (App.add_to_watchlist (Some "alice"%string) "DOGE" fresh_store) in
  In (App.mkWatch "alice" "DOGE") (App.watchlists st1)
  /\ (exists view,
        AppPages.dashboard sample_data (Some "alice"%string) st1
        = (AppPages.Shown "dashboard.html" None view, Some "alice"%string)
        /\ In "DOGE"%string (AppPages.dash_user_watchlist view))
  /\ (exists view,
        AppPages.watchlist sample_data (Some "alice"%string) st1
        = (AppPages.Shown "watchlist.html" None view, Some "alice"%string)
        /\ forall s, In s (AppPages.wl_watchlist view) -> App.company s <> "DOGE"%string).
Proof.
  apply (unknown_company_watched_not_listed sample_data "alice" "DOGE" fresh_store alice
           (match App.load_latest_prices sample_data with
            | Some l => l | None => [] end)).
  - reflexivity.
  - vm_compute. reflexivity.
  - reflexivity.
Defined.

(** X18.  A watchlist request touches the list of the session's user only:
    the companies every other user watches are the same before and after,
    and so are all accounts and holdings. *)
Theorem watchlist_add_is_per_user (username company username' : string)
  (st : App.Store) :
  username' <> username ->
  let st1 := snd (App.add_to_watchlist (Some username) company st) in
  AppPages.user_companies st1 username' = AppPages.user_companies st username'
  /\ App.users st1 = App.users st
  /\ App.portfolio st1 = App.portfolio st.
Proof.
  intros Hne. cbv zeta. unfold App.add_to_watchlist.
  destruct (existsb _ _); simpl; [repeat split|].
  repeat split. unfold AppPages.user_companies. simpl.
  rewrite List.filter_app, map_app. simpl.
  destruct (String.eqb_spec username username') as [Heq|_]; [congruence|].
  simpl. now rewrite app_nil_r.
Qed.

Lemma watchlist_add_is_per_user_witness :
  let st1 := snd (App.add_to_watchlist (Some "alice"%string) "Tesla" fresh_store) in
  AppPages.user_companies st1 "bob" = AppPages.user_companies fresh_store "bob"
  /\ App.users st1 = App.users fresh_store
  /\ App.portfolio st1 = App.portfolio fresh_store.
Proof.
  apply (watchlist_add_is_per_user "alice" "Tesla" "bob" fresh_store).
  discriminate.
Defined.

(** ** Requests that fail change nothing *)

(** X19.  In app.py a request changes the store only when it is answered
    as a success: "Account created", "Bought ...", "Stock sold
    successfully", or the plain redirect of a watchlist addition.  Every
    request answered with another message, a login redirect, a page or an
    exception returns the store it was given. *)
Theorem failed_requests_change_nothing (r : App.Request) (st : App.Store) :
  snd (App.handle r st) = st
  \/ fst (App.handle r st) = App.Redirect "login" (Some App.AccountCreated)
  \/ (exists qty company,
        fst (App.handle r st)
        = App.Redirect "portfolio_page" (Some (App.Bought qty company)))
  \/ fst (App.handle r st) = App.Redirect "portfolio_page" (Some App.StockSold)
  \/ fst (App.handle r st) = App.Redirect "dashboard" None.
Proof.
  destruct r as [f hashed|data s c q|s c q p|s c|data s]; unfold App.handle.
  - unfold App.signup. destruct (existsb _ _); [now left|right; now left].
  - unfold App.buy_stock.
    destruct s as [username|]; [|now left].
    destruct (App.get_user st (Some username)); [|now left].
    destruct q as [qty|]; [|now left].
    destruct (App.load_latest_prices data); [|now left].
    destruct (next_or_none _ _) as [stock|]; [|now left].
    destruct (float_of_int qty); [|now left].
    destruct (_ <? _)%float; [now left|].
    right. right. left. now exists qty, c.
  - unfold App.sell_stock.
    destruct s as [username|]; [|now left].
    destruct q as [qty|]; [|now left].
    destruct p as [sell_price|]; [|now left].
    destruct (next_or_none _ _) as [holding|]; [|now left].
    destruct (App.quantity holding <? qty); [now left|].
    destruct (App.get_user st (Some username)); [|now left].
    destruct (float_of_int qty); [|now left].
    right. right. right. now left.
  - unfold App.add_to_watchlist. destruct s; [|now left].
    destruct (existsb _ _); [now left|]. right. right. right. now right.
  - left. now rewrite portfolio_page_store.
Qed.

(** ** The tables of app_aws.py *)

Lemma aws_handle_balances (ddb : AppAws.DynamoDB) (r : AppAwsRequests.Request)
  (db : AppAws.Tables) :
  subtracts_exactly ddb ->
  map_Forall (fun _ u => 0 <= AppAws.balance u) (AppAws.users_table db) ->
  map_Forall (fun _ u => 0 <= AppAws.balance u)
    (AppAws.users_table (snd (AppAwsRequests.handle ddb r db))).
Proof.
  intros Hddb Hdb. destruct r as [f hashed|data s c q|s c]; unfold AppAwsRequests.handle.
  - unfold AppAws.signup.
    destruct (AppAws.users_table db !! AppAws.form_email f); [assumption|].
    simpl. apply map_Forall_insert_2; [simpl; lia|assumption].
  - unfold AppAws.buy_stock.
    destruct s as [email|]; [|assumption].
    destruct q as [qty|]; [|assumption].
    destruct (AppAws.get_latest_price data c) as [e|[price day]]; [assumption|].
    destruct (AppAws.Decimal_mul price qty) as [total_cost|]; [|assumption].
    destruct (AppAws.get_user db (Some email)) as [user|]; [|assumption].
    destruct (total_cost >? AppAws.balance user) eqn:Hgt; [assumption|].
    destruct (AppAws.update_balance ddb (AppAws.balance user) total_cost)
      as [balance'|] eqn:Hupdate; [|assumption].
    apply Hddb in Hupdate. rewrite Z.gtb_ltb in Hgt. apply Z.ltb_ge in Hgt.
    destruct (AppAws.put_item_accepts ddb _); simpl;
      (apply map_Forall_insert_2; [simpl; lia|assumption]).
  - unfold AppAws.add_to_watchlist. now destruct s.
Qed.

(** X20.  In app_aws.py no balance ever goes below zero, as long as the
    update [SET balance = balance - :amt] stores the exact difference when
    DynamoDB accepts it: whatever the requests (signups, buys of any
    quantity, watchlist additions) and whichever writes are refused, every
    balance of the Users table stays at least zero when it was before.  The
    application has no sell route, and a buy is written only when its cost,
    the product rounded to 28 digits, is at most the balance. *)
Theorem aws_balances_never_negative (ddb : AppAws.DynamoDB)
  (rs : list AppAwsRequests.Request) (db : AppAws.Tables) :
  subtracts_exactly ddb ->
  map_Forall (fun _ u => 0 <= AppAws.balance u) (AppAws.users_table db) ->
  map_Forall (fun _ u => 0 <= AppAws.balance u)
    (AppAws.users_table (AppAwsRequests.run ddb rs db)).
Proof.
  intros Hddb. unfold AppAwsRequests.run. revert db.
  induction rs as [|r rs IH]; simpl; intros db Hdb; [assumption|].
  apply IH. now apply aws_handle_balances.
Qed.

Lemma dynamodb_38_digits_subtracts_exactly : subtracts_exactly dynamodb_38_digits.
Proof.
  intros b amt b'. unfold dynamodb_38_digits. simpl.
  destruct (_ && _); [|discriminate]. now intros [= <-].
Qed.

Lemma aws_balances_never_negative_witness :
  map_Forall (fun _ u => 0 <= AppAws.balance u)
    (AppAws.users_table
       (AppAwsRequests.run dynamodb_38_digits
          [AppAwsRequests.POST_buy sample_data_aws (Some "alice@example.com"%string)
             "Apple" (Some 600);
           AppAwsRequests.POST_buy sample_data_aws (Some "alice@example.com"%string)
             "Apple" (Some (-5))]
          fresh_tables)).
Proof.
  apply (aws_balances_never_negative dynamodb_38_digits
           [AppAwsRequests.POST_buy sample_data_aws (Some "alice@example.com"%string)
              "Apple" (Some 600);
            AppAwsRequests.POST_buy sample_data_aws (Some "alice@example.com"%string)
              "Apple" (Some (-5))]
           fresh_tables).
  - exact dynamodb_38_digits_subtracts_exactly.
  - apply map_Forall_insert_2; [simpl; lia|]. apply map_Forall_empty.
Defined.



(** ** The portfolio page *)

Lemma load_rows_configured (data : App.DataFolder) (company : string)
  (cs : list (string * string)) (stocks : list App.Stock) :
  App.load_rows data cs = Some stocks ->
  existsb (fun s => String.eqb (App.company s) company) stocks
  = existsb (fun kv => String.eqb (fst kv) company) cs.
Proof.
  revert stocks. induction cs as [|[c file] rest IH]; simpl; intros stocks.
  - now intros [= <-].
  - destruct (data file) as [[close day]|]; [|discriminate].
    destruct (App.load_rows data rest) as [prices|]; [|discriminate].
    intros [= <-]. simpl. f_equal. now apply IH.
Qed.

Lemma COMPANIES_get_configured (company : string) :
  COMPANIES_get company <> None
  <-> existsb (fun kv => String.eqb (fst kv) company) COMPANIES = true.
Proof.
  unfold COMPANIES_get.
  induction COMPANIES as [|[c file] rest IH]; simpl; [split; [tauto|discriminate]|].
  destruct (String.eqb c company); simpl; [split; [reflexivity|discriminate]|exact IH].
Qed.

Lemma handle_holdings_configured (r : App.Request) (st : App.Store) :
  holdings_configured st -> holdings_configured (snd (App.handle r st)).
Proof.
  intros Hst. destruct r as [f hashed|data s c q|s c q p|s c|data s];
    unfold App.handle.
  - unfold App.signup. now destruct (existsb _ _).
  - unfold App.buy_stock.
    destruct s as [username|]; [|assumption].
    destruct (App.get_user st (Some username)); [|assumption].
    destruct q as [qty|]; [|assumption].
    destruct (App.load_latest_prices data) as [stocks|] eqn:Hload; [|assumption].
    destruct (next_or_none _ _) as [stock|] eqn:Hstock; [|assumption].
    destruct (float_of_int qty); [|assumption].
    destruct (_ <? _)%float; [assumption|].
    unfold holdings_configured. simpl. apply Forall_app. split; [assumption|].
    constructor; [|constructor]. simpl. apply COMPANIES_get_configured.
    rewrite <- (load_rows_configured data c COMPANIES stocks Hload).
    apply existsb_exists. exists stock. now apply find_some in Hstock.
  - unfold App.sell_stock.
    destruct s as [username|]; [|assumption].
    destruct q as [qty|]; [|assumption].
    destruct p as [sell_price|]; [|assumption].
    destruct (next_or_none _ _) as [holding|]; [|assumption].
    destruct (App.quantity holding <? qty); [assumption|].
    destruct (App.get_user st (Some username)); [|assumption].
    destruct (float_of_int qty); [|assumption].
    unfold holdings_configured in *. simpl.
    assert (Hm : Forall (fun h => COMPANIES_get (App.h_company h) <> None)
                   (mutate_first (App.is_holding username c)
                      (App.set_quantity (App.quantity holding - qty))
                      (App.portfolio st)))
      by (apply Forall_mutate_first; [intros x Hx; exact Hx|assumption]).
    destruct (_ =? 0); [now apply Forall_remove_first|assumption].
  - unfold App.add_to_watchlist. destruct s; [|assumption]. now destruct (existsb _ _).
  - now rewrite portfolio_page_store.
Qed.

Lemma next_or_none_none_existsb {A : Type} (p : A -> bool) (l : list A) :
  next_or_none p l = None -> existsb p l = false.
Proof.
  unfold next_or_none. induction l as [|x t IH]; simpl; [reflexivity|].
  destruct (p x); [discriminate|exact IH].
Qed.

Lemma valuation_raises_configured (prices : list App.Stock)
  (rows : list App.Holding) :
  Forall (fun h => existsb (fun s => String.eqb (App.company s) (App.h_company h)) prices
                   = true) rows ->
  (App.valuation_raises prices rows = None
   \/ App.valuation_raises prices rows = Some OverflowError)
  /\ (Forall (fun h => float_of_int (App.quantity h) <> None) rows ->
      App.valuation_raises prices rows = None).
Proof.
  induction 1 as [|h t Hh _ [IH1 IH2]]; simpl; [split; [now left|reflexivity]|].
  destruct (next_or_none _ prices) as [stock|] eqn:Hfind.
  - destruct (float_of_int (App.quantity h)) eqn:Hq.
    + split; [exact IH1|]. intros Hall. apply IH2. now inversion Hall.
    + split; [now right|]. intros Hall. inversion Hall as [|? ? Hconv _]; subst.
      now destruct Hconv.
  - apply next_or_none_none_existsb in Hfind. congruence.
Qed.

(** X24.  The portfolio page always finds a price for what it lists.  A buy
    records a holding only of a configured company, so after any sequence of
    requests every holding is of a configured company, and the lookup
    [next(...)] of the page never raises: with data files that can be read,
    the page of a registered user is rendered, or it stops with
    [OverflowError] at a quantity that does not convert to a float; it is
    rendered when every quantity of the user converts. *)
Theorem portfolio_page_finds_every_price (rs : list App.Request) (st : App.Store)
  (data : App.DataFolder) (username : string) (stocks : list App.Stock)
  (user : App.User) :
  holdings_configured st ->
  App.load_latest_prices data = Some stocks ->
  App.get_user (App.run rs st) (Some username) = Some user ->
  holdings_configured (App.run rs st)
  /\ (App.portfolio_page data (Some username) (App.run rs st)
      = (App.Render "portfolio.html", App.run rs st)
      \/ App.portfolio_page data (Some username) (App.run rs st)
         = (App.Raise OverflowError, App.run rs st))
  /\ (Forall (fun h => App.h_user h = username -> float_of_int (App.quantity h) <> None)
        (App.portfolio (App.run rs st)) ->
      App.portfolio_page data (Some username) (App.run rs st)
      = (App.Render "portfolio.html", App.run rs st)).
Proof.
  intros Hst Hload Huser.
  assert (Hrun : holdings_configured (App.run rs st)).
  { clear Huser. unfold App.run. revert st Hst.
    induction rs as [|r rs IH]; simpl; intros st Hst; [assumption|].
    apply IH. now apply handle_holdings_configured. }
  split; [exact Hrun|].
  set (rows := List.filter (fun p => String.eqb (App.h_user p) username)
                 (App.portfolio (App.run rs st))).
  assert (Hrows : Forall (fun h => existsb (fun s => String.eqb (App.company s)
                                                       (App.h_company h)) stocks = true)
                    rows).
  { apply List.Forall_forall. intros h Hh. apply filter_In in Hh as [Hh _].
    unfold holdings_configured in Hrun. rewrite List.Forall_forall in Hrun.
    specialize (Hrun h Hh). simpl in Hrun.
    rewrite (load_rows_configured data (App.h_company h) COMPANIES stocks Hload).
    now apply COMPANIES_get_configured. }
  destruct (valuation_raises_configured stocks rows Hrows) as [Hor Hall].
  unfold App.portfolio_page. rewrite Hload. fold rows. split.
  - destruct Hor as [-> | ->]; [left; now rewrite Huser | now right].
  - intros Hconv. rewrite Hall; [now rewrite Huser|].
    apply List.Forall_forall. intros h Hh. apply filter_In in Hh as [Hh Hname].
    rewrite List.Forall_forall in Hconv. apply (Hconv h Hh).
    now apply String.eqb_eq.
Qed.

Lemma portfolio_page_finds_every_price_witness :
  let st' := App.run [App.POST_buy sample_data (Some "alice"%string) "Apple" (Some 10);
                      App.POST_buy sample_data (Some "alice"%string) "DOGE" (Some 10)]
               fresh_store in
  holdings_configured st'
  /\ App.portfolio_page sample_data (Some "alice"%string) st'
     = (App.Render "portfolio.html", st').
Proof.
  destruct (portfolio_page_finds_every_price
              [App.POST_buy sample_data (Some "alice"%string) "Apple" (Some 10);
               App.POST_buy sample_data (Some "alice"%string) "DOGE" (Some 10)]
              fresh_store sample_data "alice"
              (match App.load_latest_prices sample_data with
               | Some l => l | None => [] end)
              (App.set_balance 98497.7%float alice))
    as (Hconf & _ & Hrender).
  - constructor.
  - vm_compute. reflexivity.
  - vm_compute. reflexivity.
  - split; [exact Hconf|]. apply Hrender.
    repeat constructor. intros _. vm_compute. discriminate.
Defined.

(** Where the page stops: two accepted sells of -2^1023 shares raise a
    holding of ten shares to 2^1024 + 10, which no float holds. *)
Example portfolio_page_overflow :
  let st' := App.run [App.POST_buy sample_data (Some "alice"%string) "Apple" (Some 10);
                      App.POST_sell (Some "alice"%string) "Apple" (Some (- 2 ^ 1023))
                        (Some 0%float);
                      App.POST_sell (Some "alice"%string) "Apple" (Some (- 2 ^ 1023))
                        (Some 0%float)]
               fresh_store in
  map App.quantity (App.portfolio st') = [2 ^ 1024 + 10]
  /\ App.portfolio_page sample_data (Some "alice"%string) st'
     = (App.Raise OverflowError, st').
Proof. split; vm_compute; reflexivity. Qed.

(** ** Selling what was just bought *)

(** X25.  What was bought can be sold back at once, and the portfolio is as
    it was.  After an accepted buy of [qty] shares of a company the buyer
    held no record of, a sell of [qty] shares of it, at any price, is
    accepted; it deletes the record the buy appended and leaves the
    portfolio and the watchlists exactly as they were before the buy. *)
Theorem buy_then_sell_restores_portfolio (data : App.DataFolder)
  (username company : string) (qty : Z) (sell_price : float) (st st1 : App.Store) :
  next_or_none (App.is_holding username company) (App.portfolio st) = None ->
  App.buy_stock data (Some username) company (Some qty) st
  = (App.Redirect "portfolio_page" (Some (App.Bought qty company)), st1) ->
  exists st2,
    App.sell_stock (Some username) company (Some qty) (Some sell_price) st1
    = (App.Redirect "portfolio_page" (Some App.StockSold), st2)
    /\ App.portfolio st2 = App.portfolio st
    /\ App.watchlists st2 = App.watchlists st.
Proof.
  intros Hnone. unfold App.buy_stock.
  destruct (App.get_user st (Some username)) as [u|] eqn:Huser; [|discriminate].
  destruct (App.load_latest_prices data); [|discriminate].
  destruct (next_or_none _ l) as [stock|]; [|discriminate].
  destruct (float_of_int qty) as [qf|] eqn:Hqf; [|discriminate].
  destruct (_ <? _)%float; [discriminate|]. intros [= <-].
  destruct (get_user_split _ _ _ Huser) as (us1 & us2 & Hus & Hu & Hus1).
  set (new := App.mkHolding username company qty (App.price stock)).
  set (st1 := App.mkStore _ _ _).
  assert (Hus' : App.users st1
                 = us1 ++ App.set_balance
                            (App.balance u - qf * App.price stock)%float u :: us2).
  { unfold st1. simpl. rewrite Hus. now rewrite mutate_first_at by assumption. }
  pose proof (get_user_after_set_balance st st1 username u us1 us2 _
                Huser Hus Hu Hus1 Hus') as Huser'.
  assert (Hnew : App.is_holding username company new = true)
    by (unfold App.is_holding; simpl; now rewrite !String.eqb_refl).
  assert (Hfind : next_or_none (App.is_holding username company) (App.portfolio st1)
                  = Some new).
  { unfold st1. simpl. apply next_or_none_snoc; [|exact Hnew].
    now apply next_or_none_none_existsb. }
  pose proof (next_or_none_absent _ _ Hnone) as Habsent.
  unfold App.sell_stock. rewrite Hfind, Huser', Hqf. simpl App.quantity.
  rewrite Z.ltb_irrefl, Z.sub_diag. simpl (0 =? 0).
  eexists. split; [reflexivity|]. simpl. split; [|reflexivity].
  rewrite remove_first_mutate_first by (intros x; apply is_holding_set_quantity).
  rewrite <- (app_nil_r (App.portfolio st)) at 2.
  rewrite remove_first_at by assumption. now rewrite app_nil_r.
Qed.

Lemma buy_then_sell_restores_portfolio_witness :
  exists st2,
    App.sell_stock (Some "bob"%string) "Tesla" (Some 40) (Some 1%float)
      (snd (App.buy_stock sample_data (Some "bob"%string) "Tesla" (Some 40)
              two_records_store))
    = (App.Redirect "portfolio_page" (Some App.StockSold), st2)
    /\ App.portfolio st2 = App.portfolio two_records_store
    /\ App.watchlists st2 = App.watchlists two_records_store.
Proof.
  apply (buy_then_sell_restores_portfolio sample_data "bob" "Tesla" 40 1%float
           two_records_store).
  - reflexivity.
  - vm_compute. reflexivity.
Defined.
